(** * The recommendation engine of [utils/recommendations.py]

    A shallow embedding of the three scorers
    ([content_based_recommendations], [cv_based_recommendations],
    [collaborative_filtering]) and of the combiner in
    [get_recommendations], followed by the properties the specification
    states about them.

    Conventions of the embedding:
    - a Python [str] is a [string]; the text is taken to be ASCII, so
      [str.lower] and [str.strip] act on the ASCII letters and the ASCII
      white space only;
    - a Python [set] of strings or of integers is a [gset]; a [dict]
      whose iteration order is observable is an insertion-ordered
      association list ([dict]);
    - a Python [float] is a binary64 [float] of the kernel, with its
      rounding; [int / int] is the quotient of the two converted
      integers, which is Python's correctly rounded quotient for
      operands below 2^53; the integer [0] that the code stores in a
      score is the float [0];
    - an SQL table is the list of its rows in the order a [SELECT]
      without [ORDER BY] returns them; a nullable column is an [option];
      the connection of [utils/database] is not part of the model, the
      engine is a function of the tables ([database]) its cursor reads;
    - the one exception of the scoring arithmetic, [ZeroDivisionError],
      and the [KeyError] of an unguarded subscript are explicit in the
      [result] type. *)

From Stdlib Require Import ZArith Floats Uint63 Ascii String.
From stdpp Require Import gmap strings list.

Set Warnings "-inexact-float".

Open Scope string_scope.
Open Scope list_scope.
Open Scope nat_scope.

(** ** Python strings *)

Module Py.

(** [str.isspace] on one ASCII character: TAB, LF, VT, FF, CR, the
    four separators FS, GS, RS, US, and the space. *)
Definition is_space (c : ascii) : bool :=
  let n := nat_of_ascii c in
  ((9 <=? n) && (n <=? 13)) || ((28 <=? n) && (n <=? 32)).

Definition is_upper (c : ascii) : bool :=
  let n := nat_of_ascii c in (65 <=? n) && (n <=? 90).

Definition lower_char (c : ascii) : ascii :=
  if is_upper c then ascii_of_nat (nat_of_ascii c + 32) else c.

(** [s.lower()] *)
Fixpoint lower (s : string) : string :=
  match s with
  | EmptyString => EmptyString
  | String c s' => String (lower_char c) (lower s')
  end.

(** [s.lstrip()] *)
Fixpoint lstrip (s : string) : string :=
  match s with
  | EmptyString => EmptyString
  | String c s' => if is_space c then lstrip s' else s
  end.

(** [s.rstrip()] *)
Fixpoint rstrip (s : string) : string :=
  match s with
  | EmptyString => EmptyString
  | String c s' =>
      match rstrip s' with
      | EmptyString => if is_space c then EmptyString else String c EmptyString
      | t => String c t
      end
  end.

(** [s.strip()] *)
Definition strip (s : string) : string := rstrip (lstrip s).

(** [s.split(sep)] for a one-character separator: never an empty
    list, and an empty piece for each leading, trailing or doubled
    separator. *)
Fixpoint split (sep : ascii) (s : string) : list string :=
  match s with
  | EmptyString => [EmptyString]
  | String c s' =>
      if Ascii.eqb c sep then EmptyString :: split sep s'
      else match split sep s' with
           | [] => [String c EmptyString]
           | t :: ts => String c t :: ts
           end
  end.

(** [s.startswith(p)] *)
Fixpoint startswith (p s : string) : bool :=
  match p, s with
  | EmptyString, _ => true
  | String a p', String b s' => Ascii.eqb a b && startswith p' s'
  | String _ _, EmptyString => false
  end.

(** [sub in s] *)
Fixpoint contains (sub s : string) : bool :=
  startswith sub s ||
  match s with
  | EmptyString => false
  | String _ s' => contains sub s'
  end.

(** Truth value of a nullable text column: [None] and [''] are false. *)
Definition truthy (o : option string) : bool :=
  match o with
  | Some (String _ _) => true
  | _ => false
  end.

(** [any(k in text for k in keywords)] *)
Definition any_in (keywords : list string) (text : string) : bool :=
  existsb (fun k => contains k text) keywords.

Definition all_space (s : string) : bool :=
  forallb is_space (list_ascii_of_string s).

(** [s.isascii()]: every character is below 128.  On such text the
    functions above are [str.lower], [str.strip], [str.split] and [in];
    beyond it [str.lower] and [str.strip] also act on letters and white
    space that this module leaves alone. *)
Definition isascii (s : string) : bool :=
  forallb (λ c, nat_of_ascii c <? 128) (list_ascii_of_string s).

End Py.

(** ** Exceptions, dictionaries, sorting *)

Inductive exn : Set := ZeroDivisionError | KeyError.

Inductive result (A : Type) : Type :=
| Ok (a : A)
| Raise (e : exn).

Arguments Ok {A} a.
Arguments Raise {A} e.

Definition bind {A B : Type} (m : result A) (k : A → result B) : result B :=
  match m with
  | Ok a => k a
  | Raise e => Raise e
  end.

Notation "'let*' x ':=' m 'in' k" := (bind m (fun x => k))
  (at level 10, x name, m at level 100, k at level 200).

(** [float(n)] for an integer [0 <= n < 2^53]. *)
Definition float_of_int (n : Z) : float := PrimFloat.of_uint63 (Uint63.of_Z n).

(** [a / b] on two Python integers. *)
Definition truediv (a b : Z) : result float :=
  if (b =? 0)%Z then Raise ZeroDivisionError
  else Ok (float_of_int a / float_of_int b)%float.

(** [a > b] on two scores. *)
Definition py_gt (a b : float) : bool := (b <? a)%float.

(** A [dict] keyed by integer ids, in insertion order. *)
Definition dict (V : Type) : Type := list (Z * V).

Fixpoint dict_get {V : Type} (k : Z) (d : dict V) : option V :=
  match d with
  | [] => None
  | (k', v) :: d' => if (k =? k')%Z then Some v else dict_get k d'
  end.

(** [d[k] = v]: an existing key keeps its position, a new key goes last. *)
Fixpoint dict_set {V : Type} (k : Z) (v : V) (d : dict V) : dict V :=
  match d with
  | [] => [(k, v)]
  | (k', v') :: d' =>
      if (k =? k')%Z then (k, v) :: d' else (k', v') :: dict_set k v d'
  end.

Definition dict_keys {V : Type} (d : dict V) : list Z := map fst d.

(** [list(d.values())] *)
Definition dict_values {V : Type} (d : dict V) : list V := map snd d.

(** [l.sort(key=key, reverse=True)]: descending by key, and stable, so
    elements of equal key keep their original order. *)
Fixpoint insert_desc {A : Type} (key : A → float) (x : A) (l : list A) : list A :=
  match l with
  | [] => [x]
  | y :: l' => if py_gt (key y) (key x) then y :: insert_desc key x l' else x :: l
  end.

Definition sort_desc {A : Type} (key : A → float) (l : list A) : list A :=
  foldr (insert_desc key) [] l.

(** ** The snapshot read through the cursor *)

Record profile_row : Type := {
  profile_user_id : Z;
  profile_skills : option string }.

Record internship_row : Type := {
  internship_id : Z;
  internship_title : string;
  internship_description : option string;
  internship_required_skills : option string;
  internship_posted_at : string;
  internship_company_id : Z }.

Record user_row : Type := {
  user_id_of : Z;
  user_name : string }.

Record cv_row : Type := {
  cv_user_id : Z;
  cv_certifications : option string;
  cv_work_experience : option string;
  cv_projects : option string;
  cv_education : option string }.

Record application_row : Type := {
  app_student_id : Z;
  app_internship_id : Z }.

Record database : Type := {
  profiles : list profile_row;
  internships : list internship_row;
  users : list user_row;
  cvs : list cv_row;
  applications : list application_row }.

(** A recommendation: the dictionary the scorers build.  The three
    sub-scores are present in the records of the CV scorer only. *)
Record recommendation : Type := {
  rec_id : Z;
  rec_title : string;
  rec_description : option string;
  rec_required_skills : option string;
  rec_posted_at : string;
  rec_company_name : string;
  rec_company_id : Z;
  rec_similarity : float;
  rec_type : string;
  rec_skill_match : option float;
  rec_education_bonus : option float;
  rec_experience_bonus : option float }.

(** [SELECT name FROM users WHERE id=?], then the fallback name. *)
Definition company_name_of (db : database) (company_id : Z) : string :=
  match find (λ u, (user_id_of u =? company_id)%Z) (users db) with
  | Some company => user_name company
  | None => "Unknown Company"
  end.

(** ** Skill tags *)

(** [set(skill.strip().lower() for skill in s.split(','))] *)
Definition skill_set (s : string) : gset string :=
  list_to_set (map (λ skill, Py.lower (Py.strip skill)) (Py.split "," s)).

(** [... if internship['required_skills'] else set()] *)
Definition required_skills_of (internship : internship_row) : gset string :=
  match internship_required_skills internship with
  | Some (String c s) => skill_set (String c s)
  | _ => ∅
  end.

(** [intersection / union if union > 0 else 0] *)
Definition jaccard_quotient (intersection union : Z) : result float :=
  if (0 <? union)%Z then truediv intersection union else Ok 0%float.

(** ** Content-based scorer *)

Definition content_rec (db : database) (internship : internship_row)
    (similarity : float) : recommendation :=
  {| rec_id := internship_id internship;
     rec_title := internship_title internship;
     rec_description := internship_description internship;
     rec_required_skills := internship_required_skills internship;
     rec_posted_at := internship_posted_at internship;
     rec_company_name := company_name_of db (internship_company_id internship);
     rec_company_id := internship_company_id internship;
     rec_similarity := similarity;
     rec_type := "Content-based";
     rec_skill_match := None;
     rec_education_bonus := None;
     rec_experience_bonus := None |}.

(** One turn of the loop over the internships: the record appended to
    [recommendations], if any. *)
Definition content_score (db : database) (student_skills : gset string)
    (internship : internship_row) : result (option recommendation) :=
  let required_skills := required_skills_of internship in
  if decide (required_skills = ∅) then Ok None
  else
    let intersection := Z.of_nat (size (student_skills ∩ required_skills)) in
    let union := Z.of_nat (size (student_skills ∪ required_skills)) in
    let* similarity := jaccard_quotient intersection union in
    if py_gt similarity 0.2 then
      Ok (Some (content_rec db internship similarity))
    else Ok None.

(** A loop that appends what each turn produces. *)
Fixpoint collect {A B : Type} (turn : A → result (option B)) (l : list A)
    : result (list B) :=
  match l with
  | [] => Ok []
  | x :: l' =>
      let* r := turn x in
      let* rs := collect turn l' in
      Ok (match r with Some y => y :: rs | None => rs end)
  end.

Definition content_based_recommendations (db : database) (user_id : Z)
    : result (list recommendation) :=
  match find (λ p, (profile_user_id p =? user_id)%Z) (profiles db) with
  | None => Ok []
  | Some profile =>
      match profile_skills profile with
      | Some (String c s) =>
          let student_skills := skill_set (String c s) in
          let* recommendations :=
            collect (content_score db student_skills) (internships db) in
          Ok (take 5 (sort_desc rec_similarity recommendations))
      | _ => Ok []
      end
  end.

(** ** CV-based scorer *)

(** The vocabulary the three fields are scanned for. *)
Definition tech_skills : list string :=
  ["python"; "java"; "javascript"; "react"; "node"; "sql"; "html"; "css";
   "flask"; "django"; "machine learning"; "data science"; "web development";
   "mobile development"; "cloud"; "aws"; "azure"; "git"; "docker"].

(** [if cv[field]: text = cv[field].lower();
     for skill in tech_skills: if skill in text: cv_skills.add(skill)] *)
Definition scan_field (field : option string) (cv_skills : gset string)
    : gset string :=
  match field with
  | Some (String c s) =>
      let text := Py.lower (String c s) in
      foldl (λ acc skill, if Py.contains skill text then acc ∪ {[skill]} else acc)
            cv_skills tech_skills
  | _ => cv_skills
  end.

Definition cv_skills_of (cv : cv_row) : gset string :=
  scan_field (cv_projects cv)
    (scan_field (cv_work_experience cv)
       (scan_field (cv_certifications cv) ∅)).

(** [skill_similarity] of one posting. *)
Definition skill_similarity_of (cv_skills required_skills : gset string)
    : result float :=
  if decide (cv_skills = ∅) then Ok 0%float
  else
    let intersection := Z.of_nat (size (cv_skills ∩ required_skills)) in
    let union := Z.of_nat (size (cv_skills ∪ required_skills)) in
    jaccard_quotient intersection union.

(** The bonus pattern shared by education and experience:
    [if cv[field] and internship['description']:
       if any(k in cv[field].lower() for k in keywords): bonus = 0.1] *)
Definition bonus_of (field description : option string)
    (keywords : list string) : float :=
  match field with
  | Some (String c s) =>
      if Py.truthy description then
        if Py.any_in keywords (Py.lower (String c s)) then 0.1%float else 0%float
      else 0%float
  | _ => 0%float
  end.

Definition education_bonus_of (cv : cv_row) (internship : internship_row) : float :=
  bonus_of (cv_education cv) (internship_description internship)
    ["bachelor"; "master"; "phd"; "degree"].

Definition experience_bonus_of (cv : cv_row) (internship : internship_row) : float :=
  bonus_of (cv_work_experience cv) (internship_description internship)
    ["intern"; "developer"; "programmer"; "analyst"].

(** [total_similarity] of one posting whose required tags are not empty. *)
Definition total_similarity_of (cv : cv_row) (internship : internship_row)
    : result float :=
  let* skill_similarity :=
    skill_similarity_of (cv_skills_of cv) (required_skills_of internship) in
  Ok (skill_similarity + education_bonus_of cv internship
        + experience_bonus_of cv internship)%float.

Definition cv_rec (db : database) (internship : internship_row)
    (skill_similarity education_bonus experience_bonus : float) : recommendation :=
  {| rec_id := internship_id internship;
     rec_title := internship_title internship;
     rec_description := internship_description internship;
     rec_required_skills := internship_required_skills internship;
     rec_posted_at := internship_posted_at internship;
     rec_company_name := company_name_of db (internship_company_id internship);
     rec_company_id := internship_company_id internship;
     rec_similarity := (skill_similarity + education_bonus + experience_bonus)%float;
     rec_type := "CV-based";
     rec_skill_match := Some skill_similarity;
     rec_education_bonus := Some education_bonus;
     rec_experience_bonus := Some experience_bonus |}.

(** One turn of the loop over the internships. *)
Definition cv_score (db : database) (cv : cv_row) (cv_skills : gset string)
    (internship : internship_row) : result (option recommendation) :=
  let required_skills := required_skills_of internship in
  if decide (required_skills = ∅) then Ok None
  else
    let* skill_similarity := skill_similarity_of cv_skills required_skills in
    let education_bonus := education_bonus_of cv internship in
    let experience_bonus := experience_bonus_of cv internship in
    let total_similarity :=
      (skill_similarity + education_bonus + experience_bonus)%float in
    if py_gt total_similarity 0.15 then
      Ok (Some (cv_rec db internship skill_similarity education_bonus
                  experience_bonus))
    else Ok None.

(** The list [recommendations] before it is sorted and cut. *)
Definition cv_candidates (db : database) (cv : cv_row) : result (list recommendation) :=
  collect (cv_score db cv (cv_skills_of cv)) (internships db).

Definition cv_based_recommendations (db : database) (user_id : Z)
    : result (list recommendation) :=
  match find (λ cv, (cv_user_id cv =? user_id)%Z) (cvs db) with
  | None => Ok []
  | Some cv =>
      let* recommendations := cv_candidates db cv in
      Ok (take 5 (sort_desc rec_similarity recommendations))
  end.

(** ** The combiner of [get_recommendations] *)

(** [{rec['id']: rec for rec in content_recs}] *)
Definition content_dict (content_recs : list recommendation) : dict recommendation :=
  foldl (λ all_recs rec, dict_set (rec_id rec) rec all_recs) [] content_recs.

(** One turn of [for rec in cv_recs]. *)
Definition merge_cv (all_recs : dict recommendation) (rec : recommendation)
    : dict recommendation :=
  match dict_get (rec_id rec) all_recs with
  | None => dict_set (rec_id rec) rec all_recs
  | Some existing =>
      if py_gt (rec_similarity rec) (rec_similarity existing)
      then dict_set (rec_id rec) rec all_recs
      else all_recs
  end.

(** One turn of [for rec in collab_recs]. *)
Definition merge_collab (all_recs : dict recommendation) (rec : recommendation)
    : dict recommendation :=
  match dict_get (rec_id rec) all_recs with
  | None => dict_set (rec_id rec) rec all_recs
  | Some _ => all_recs
  end.

(** [all_recs] after the loop over [cv_recs]. *)
Definition all_recs_cv (content_recs cv_recs : list recommendation) : dict recommendation :=
  foldl merge_cv (content_dict content_recs) cv_recs.

(** [all_recs] after the loop over [collab_recs]. *)
Definition all_recs_collab (content_recs cv_recs collab_recs : list recommendation)
    : dict recommendation :=
  foldl merge_collab (all_recs_cv content_recs cv_recs) collab_recs.

Definition combine (content_recs cv_recs collab_recs : list recommendation) : list recommendation :=
  dict_values (all_recs_collab content_recs cv_recs collab_recs).

(** ** Collaborative scorer *)

(** The user-item matrix: for each student, in order of first
    application, the set of internships applied to. *)
Definition add_application (user_items : dict (gset Z))
    (app : application_row) : dict (gset Z) :=
  let student_id := app_student_id app in
  let user_items :=
    match dict_get student_id user_items with
    | None => dict_set student_id ∅ user_items
    | Some _ => user_items
    end in
  dict_set student_id
    (default ∅ (dict_get student_id user_items) ∪ {[app_internship_id app]})
    user_items.

Definition user_items_of (all_applications : list application_row)
    : dict (gset Z) :=
  foldl add_application [] all_applications.

(** The loop over [user_items.items()] that fills [similar_students]. *)
Fixpoint similar_students_of (user_id : Z) (current_user_apps : gset Z)
    (items : list (Z * gset Z)) : result (list (Z * float)) :=
  match items with
  | [] => Ok []
  | (student_id, apps) :: items' =>
      if (student_id =? user_id)%Z then
        similar_students_of user_id current_user_apps items'
      else
        let intersection := Z.of_nat (size (current_user_apps ∩ apps)) in
        let union := Z.of_nat (size (current_user_apps ∪ apps)) in
        let* similarity := jaccard_quotient intersection union in
        let* similar_students :=
          similar_students_of user_id current_user_apps items' in
        Ok (if py_gt similarity 0 then (student_id, similarity) :: similar_students
            else similar_students)
  end.

Definition collab_rec (db : database) (internship : internship_row)
    (similarity : float) : recommendation :=
  {| rec_id := internship_id internship;
     rec_title := internship_title internship;
     rec_description := internship_description internship;
     rec_required_skills := internship_required_skills internship;
     rec_posted_at := internship_posted_at internship;
     rec_company_name := company_name_of db (internship_company_id internship);
     rec_company_id := internship_company_id internship;
     rec_similarity := similarity;
     rec_type := "Collaborative";
     rec_skill_match := None;
     rec_education_bonus := None;
     rec_experience_bonus := None |}.

(** One turn of the inner loop, on the pair ([recommendations],
    [seen_internships]). *)
Definition visit (db : database) (similarity : float)
    (st : list recommendation * gset Z) (iid : Z) : list recommendation * gset Z :=
  let '(recommendations, seen_internships) := st in
  if decide (iid ∈ seen_internships) then st
  else
    match find (λ i, (internship_id i =? iid)%Z) (internships db) with
    | None => st
    | Some internship =>
        (recommendations ++ [collab_rec db internship similarity],
         seen_internships ∪ {[iid]})
    end.

Section Engine.

(** The order in which CPython iterates over a set of integers
    depends on the hash table behind it: it is left open, as some
    enumeration of the elements. *)
Variable set_iter : gset Z → list Z.
Hypothesis set_iter_perm : ∀ X : gset Z, set_iter X ≡ₚ elements X.

(** The outer loop, over the best three students. *)
Fixpoint visit_students (db : database) (user_items : dict (gset Z))
    (students : list (Z * float)) (st : list recommendation * gset Z)
    : result (list recommendation * gset Z) :=
  match students with
  | [] => Ok st
  | (student_id, similarity) :: students' =>
      match dict_get student_id user_items with
      | None => Raise KeyError
      | Some apps =>
          visit_students db user_items students'
            (foldl (visit db similarity) st (set_iter apps))
      end
  end.

Definition collaborative_filtering (db : database) (user_id : Z)
    : result (list recommendation) :=
  let user_items := user_items_of (applications db) in
  let current_user_apps := default ∅ (dict_get user_id user_items) in
  let* similar_students :=
    similar_students_of user_id current_user_apps user_items in
  let similar_students := sort_desc snd similar_students in
  let* st :=
    visit_students db user_items (take 3 similar_students)
      ([], current_user_apps) in
  Ok (take 5 (fst st)).

Definition get_recommendations (db : database) (user_id : Z)
    : result (list recommendation) :=
  let* content_recs := content_based_recommendations db user_id in
  let* cv_recs := cv_based_recommendations db user_id in
  let* collab_recs := collaborative_filtering db user_id in
  Ok (combine content_recs cv_recs collab_recs).

End Engine.

(** ** A small snapshot to run the engine on *)

Module Demo.

Definition posting (id : Z) (title : string) (description required : option string)
    : internship_row :=
  {| internship_id := id; internship_title := title;
     internship_description := description;
     internship_required_skills := required;
     internship_posted_at := "2024-01-01 00:00:00";
     internship_company_id := 100 |}.

Definition apply_to (student internship : Z) : application_row :=
  {| app_student_id := student; app_internship_id := internship |}.

Definition db : database :=
  {| profiles := [ {| profile_user_id := 1; profile_skills := Some "Python, SQL" |};
                   {| profile_user_id := 2; profile_skills := Some "" |} ];
     internships :=
       [ posting 10 "Backend" (Some "Build services") (Some "python, java");
         posting 11 "Legacy" (Some "Maintain") (Some "java, ruby");
         posting 12 "Open" (Some "Anything") (Some "");
         posting 13 "Data" None (Some "SQL,Python") ];
     users := [ {| user_id_of := 100; user_name := "Acme" |} ];
     cvs := [ {| cv_user_id := 1;
                 cv_certifications := None;
                 cv_work_experience := Some "Intern at a bank";
                 cv_projects := Some "Built a tool with Python and React";
                 cv_education := Some "Bachelor of Science" |} ];
     applications :=
       [ apply_to 1 10; apply_to 3 10; apply_to 3 12; apply_to 4 11 ] |}.

(** Three records for posting 10, one per strategy, as the combiner
    may receive them. *)
Definition backend : internship_row :=
  posting 10 "Backend" (Some "Build services") (Some "python, java").

(** Posting 12 asks for no skill at all. *)
Definition open_posting : internship_row :=
  posting 12 "Open" (Some "Anything") (Some "").

Definition tag_rec : recommendation := content_rec db backend 0.4.
Definition doc_rec : recommendation := cv_rec db backend 0.4 0.1 0.1.
Definition weak_doc_rec : recommendation := cv_rec db backend 0.3 0 0.
Definition peer_rec : recommendation := collab_rec db backend 0.9.

(** A CV that earns no bonus and mentions three skills, and two
    postings around the threshold of the CV-based scorer: [wide]
    shares 3 tags of 20 with the CV, [narrow] 3 of 19. *)
Definition plain_cv : cv_row :=
  {| cv_user_id := 5;
     cv_certifications := None;
     cv_work_experience := None;
     cv_projects := Some "python, sql and java";
     cv_education := None |}.

Definition wide : internship_row :=
  posting 20 "Wide" (Some "Everything")
    (Some "python,sql,java,t4,t5,t6,t7,t8,t9,t10,t11,t12,t13,t14,t15,t16,t17,t18,t19,t20").

Definition narrow : internship_row :=
  posting 21 "Narrow" (Some "Almost everything")
    (Some "python,sql,java,t4,t5,t6,t7,t8,t9,t10,t11,t12,t13,t14,t15,t16,t17,t18,t19").

(** A CV with one skill and a degree: against [wide] the skill match is
    1/20 and the education bonus 0.1. *)
Definition graduate_cv : cv_row :=
  {| cv_user_id := 6;
     cv_certifications := None;
     cv_work_experience := None;
     cv_projects := Some "python";
     cv_education := Some "Bachelor of Science" |}.

(** A CV in which no vocabulary term occurs, with a degree and an
    internship. *)
Definition unskilled_cv : cv_row :=
  {| cv_user_id := 8;
     cv_certifications := None;
     cv_work_experience := Some "Intern at a bank";
     cv_projects := None;
     cv_education := Some "Bachelor of Arts" |}.

(** The same CV without the degree. *)
Definition uneducated_cv : cv_row :=
  {| cv_user_id := 8;
     cv_certifications := None;
     cv_work_experience := Some "Intern at a bank";
     cv_projects := None;
     cv_education := None |}.

Definition bonus_db : database :=
  {| profiles := []; internships := internships db; users := users db;
     cvs := [uneducated_cv]; applications := [] |}.

(** A seeker with skills, no CV and no application. *)
Definition newcomer_db : database :=
  {| profiles := [ {| profile_user_id := 5; profile_skills := Some "Java, Ruby" |} ];
     internships := internships db; users := users db;
     cvs := cvs db; applications := applications db |}.

Definition threshold_db : database :=
  {| profiles := []; internships := [wide; narrow];
     users := [ {| user_id_of := 100; user_name := "Acme" |} ];
     cvs := [plain_cv]; applications := [] |}.

End Demo.

(** ** Invariants used in the proofs *)

(** Every recommendation is filed under its own id, once. *)
Definition keyed (d : dict recommendation) : Prop :=
  NoDup (dict_keys d) ∧ ∀ k r, (k, r) ∈ d → rec_id r = k.

(** A string that does not begin with white space. *)
Definition headed (s : string) : Prop :=
  match s with
  | EmptyString => True
  | String c _ => Py.is_space c = false
  end.

(** A list ranked by [key]: no element is followed by one of strictly
    greater key. *)
Fixpoint descending {A : Type} (key : A → float) (l : list A) : Prop :=
  match l with
  | x :: l' =>
      match l' with
      | y :: _ => py_gt (key y) (key x) = false ∧ descending key l'
      | [] => True
      end
  | [] => True
  end.

(** A pass that, at each record, either leaves the mapping alone (the
    id being present) or files the record under its id. *)
Definition files_records
    (f : dict recommendation → recommendation → dict recommendation) : Prop :=
  ∀ d r, f d r = d ∧ rec_id r ∈ dict_keys d ∨ f d r = dict_set (rec_id r) r d.

(** The application set of a student in the user-item matrix. *)
Definition apps_of (user_items : dict (gset Z)) (student_id : Z) : gset Z :=
  default ∅ (dict_get student_id user_items).

(** What the inner loop of the collaborative scorer keeps true of its
    pair ([recommendations], [seen_internships]), [seen0] being the
    initial set and [Q] a property of the records it appends. *)
Definition visit_inv (seen0 : gset Z) (Q : recommendation → Prop)
    (st : list recommendation * gset Z) : Prop :=
  seen0 ⊆ snd st
  ∧ NoDup (map rec_id (fst st))
  ∧ ∀ r, r ∈ fst st → rec_id r ∈ snd st ∧ (rec_id r ∉ seen0) ∧ Q r.

(** A record that shows a posting of the catalogue: the seven fields
    every scorer copies or looks up. *)
Definition shows (db : database) (internship : internship_row)
    (r : recommendation) : Prop :=
  rec_id r = internship_id internship
  ∧ rec_title r = internship_title internship
  ∧ rec_description r = internship_description internship
  ∧ rec_required_skills r = internship_required_skills internship
  ∧ rec_posted_at r = internship_posted_at internship
  ∧ rec_company_id r = internship_company_id internship
  ∧ rec_company_name r = company_name_of db (internship_company_id internship).

(** The list [recommendations] of the Content-based scorer before it is
    sorted and cut. *)
Definition content_candidates (db : database) (skills : string)
    : result (list recommendation) :=
  collect (content_score db (skill_set skills)) (internships db).

(** * Properties *)

(** ** Python strings on examples *)

Example split_trailing : Py.split "," "python," = ["python"; ""].
Proof. reflexivity. Qed.

Example split_empty : Py.split "," "" = [""].
Proof. reflexivity. Qed.

Example strip_inner : Py.strip "  Machine Learning  " = "Machine Learning".
Proof. reflexivity. Qed.

Example contains_inside : Py.contains "java" "my javascript" = true.
Proof. reflexivity. Qed.

(** ** The [result] monad and the loops *)

Lemma bind_Ok {A B : Type} (m : result A) (k : A → result B) (b : B) :
  bind m k = Ok b ↔ ∃ a, m = Ok a ∧ k a = Ok b.
Proof.
  destruct m as [a|e]; simpl.
  - split; [eauto | intros (a' & [= <-] & H); exact H].
  - split; [discriminate | intros (a' & [=] & _)].
Qed.

Lemma collect_spec {A B : Type} (turn : A → result (option B)) (l : list A) :
  (∀ x, x ∈ l → ∃ r, turn x = Ok r) →
  ∃ rs, collect turn l = Ok rs
        ∧ length rs ≤ length l
        ∧ ∀ y, y ∈ rs ↔ ∃ x, x ∈ l ∧ turn x = Ok (Some y).
Proof.
  induction l as [|x l IH]; intros Hok; simpl.
  - exists []. split; [done|]. split; [done|]. intros y. split.
    + intros H. inversion H.
    + intros (x & H & _). inversion H.
  - destruct (Hok x) as [r Hr]; [left|].
    destruct IH as (rs & Hrs & Hlen & Hin).
    { intros z Hz. apply Hok. by right. }
    rewrite Hr, Hrs. simpl.
    exists (match r with Some y => y :: rs | None => rs end).
    split; [done|]. split.
    { destruct r; simpl; lia. }
    intros y. split.
    + intros Hy. destruct r as [y0|].
      * apply elem_of_cons in Hy as [->|Hy].
        -- exists x. split; [left | done].
        -- apply Hin in Hy as (z & Hz & Hzy). exists z. split; [by right | done].
      * apply Hin in Hy as (z & Hz & Hzy). exists z. split; [by right | done].
    + intros (z & Hz & Hzy). apply elem_of_cons in Hz as [->|Hz].
      * rewrite Hr in Hzy. injection Hzy as ->. left.
      * assert (y ∈ rs) by (apply Hin; eauto).
        destruct r; [by right | done].
Qed.

(** ** Sorting permutes *)

Lemma insert_desc_perm {A : Type} (key : A → float) (x : A) (l : list A) :
  insert_desc key x l ≡ₚ x :: l.
Proof.
  induction l as [|y l IH]; simpl; [done|].
  destruct (py_gt (key y) (key x)); [|done].
  rewrite IH. apply Permutation_swap.
Qed.

Lemma sort_desc_perm {A : Type} (key : A → float) (l : list A) :
  sort_desc key l ≡ₚ l.
Proof.
  induction l as [|x l IH]; simpl; [done|].
  rewrite insert_desc_perm. by rewrite IH.
Qed.

Lemma sort_desc_length {A : Type} (key : A → float) (l : list A) :
  length (sort_desc key l) = length l.
Proof. by rewrite sort_desc_perm. Qed.

Lemma elem_of_sort_desc {A : Type} (key : A → float) (l : list A) (x : A) :
  x ∈ sort_desc key l ↔ x ∈ l.
Proof. by rewrite sort_desc_perm. Qed.

Lemma elem_of_take_inv {A : Type} (n : nat) (l : list A) (x : A) :
  x ∈ take n l → x ∈ l.
Proof.
  intros (i & Hi & _)%elem_of_take. by eapply list_elem_of_lookup_2.
Qed.

Lemma elem_of_top {A : Type} (key : A → float) (n : nat) (l : list A) (x : A) :
  x ∈ take n (sort_desc key l) → x ∈ l.
Proof.
  intros H. apply (elem_of_sort_desc key). eapply elem_of_take_inv, H.
Qed.

Lemma length_top {A : Type} (key : A → float) (n : nat) (l : list A) :
  length (take n (sort_desc key l)) ≤ n.
Proof. rewrite length_take. lia. Qed.

(** ** Dictionaries *)

Lemma dict_get_set_eq {V : Type} (k : Z) (v : V) (d : dict V) :
  dict_get k (dict_set k v d) = Some v.
Proof.
  induction d as [|[k' v'] d IH]; simpl.
  - by rewrite Z.eqb_refl.
  - destruct (k =? k')%Z eqn:E; simpl; [by rewrite Z.eqb_refl | by rewrite E].
Qed.

Lemma dict_get_set_ne {V : Type} (k k' : Z) (v : V) (d : dict V) :
  k ≠ k' → dict_get k' (dict_set k v d) = dict_get k' d.
Proof.
  intros Hne. induction d as [|[k0 v0] d IH]; simpl.
  - destruct (k' =? k)%Z eqn:E; [apply Z.eqb_eq in E; congruence | done].
  - destruct (k =? k0)%Z eqn:E; simpl.
    + apply Z.eqb_eq in E. subst k0.
      destruct (k' =? k)%Z eqn:E'; [apply Z.eqb_eq in E'; congruence | done].
    + by rewrite IH.
Qed.

Lemma dict_set_length {V : Type} (k : Z) (v : V) (d : dict V) :
  length (dict_set k v d) ≤ S (length d).
Proof.
  induction d as [|[k' v'] d IH]; simpl; [lia|].
  destruct (k =? k')%Z; simpl; lia.
Qed.

Lemma dict_get_Some_elem {V : Type} (k : Z) (v : V) (d : dict V) :
  dict_get k d = Some v → (k, v) ∈ d.
Proof.
  induction d as [|[k' v'] d IH]; simpl; [done|].
  destruct (k =? k')%Z eqn:E.
  - apply Z.eqb_eq in E. intros [= ->]. subst. left.
  - intros H. right. auto.
Qed.

Lemma dict_get_None_keys {V : Type} (k : Z) (d : dict V) :
  dict_get k d = None ↔ k ∉ dict_keys d.
Proof.
  induction d as [|[k' v'] d IH]; simpl.
  - split; [intros _ H; inversion H | done].
  - destruct (k =? k')%Z eqn:E.
    + apply Z.eqb_eq in E. subst. split; [done|]. intros H. exfalso. apply H. left.
    + apply Z.eqb_neq in E. rewrite IH. unfold dict_keys. simpl.
      rewrite not_elem_of_cons. tauto.
Qed.

Lemma dict_keys_set {V : Type} (k k' : Z) (v : V) (d : dict V) :
  k' ∈ dict_keys (dict_set k v d) ↔ k' = k ∨ k' ∈ dict_keys d.
Proof.
  unfold dict_keys. induction d as [|[k0 v0] d IH]; simpl.
  - rewrite list_elem_of_singleton. split; [auto|].
    intros [H|H]; [done | inversion H].
  - destruct (k =? k0)%Z eqn:E; simpl.
    + apply Z.eqb_eq in E. subst k0. rewrite !elem_of_cons. tauto.
    + rewrite !elem_of_cons, IH. tauto.
Qed.

Lemma dict_set_elem {V : Type} (k k' : Z) (v v' : V) (d : dict V) :
  (k', v') ∈ dict_set k v d → (k', v') = (k, v) ∨ (k', v') ∈ d.
Proof.
  induction d as [|[k0 v0] d IH]; simpl.
  - rewrite list_elem_of_singleton. auto.
  - destruct (k =? k0)%Z; rewrite !elem_of_cons; [tauto|].
    intros [H|H]; [tauto|]. apply IH in H. tauto.
Qed.

Lemma dict_set_NoDup {V : Type} (k : Z) (v : V) (d : dict V) :
  NoDup (dict_keys d) → NoDup (dict_keys (dict_set k v d)).
Proof.
  unfold dict_keys. induction d as [|[k0 v0] d IH]; simpl; intros Hd.
  - apply NoDup_singleton.
  - apply NoDup_cons in Hd as [Hk0 Hd].
    destruct (k =? k0)%Z eqn:E; simpl.
    + apply Z.eqb_eq in E. subst k0. by apply NoDup_cons.
    + apply Z.eqb_neq in E. apply NoDup_cons. split; [|auto].
      intros H. apply (dict_keys_set k k0 v d) in H as [H|H]; [congruence | done].
Qed.

Lemma dict_get_elem_NoDup {V : Type} (k : Z) (v : V) (d : dict V) :
  NoDup (dict_keys d) → (k, v) ∈ d → dict_get k d = Some v.
Proof.
  unfold dict_keys. induction d as [|[k0 v0] d IH]; simpl; intros Hd Hin.
  - inversion Hin.
  - apply NoDup_cons in Hd as [Hk0 Hd].
    apply elem_of_cons in Hin as [[= -> ->]|Hin].
    + by rewrite Z.eqb_refl.
    + destruct (k =? k0)%Z eqn:E; [|auto].
      apply Z.eqb_eq in E. subst k0. exfalso. apply Hk0.
      apply list_elem_of_fmap. by exists (k, v).
Qed.

Lemma keyed_nil : keyed [].
Proof. split; [constructor | intros k r H; inversion H]. Qed.

Lemma keyed_set (r : recommendation) (d : dict recommendation) :
  keyed d → keyed (dict_set (rec_id r) r d).
Proof.
  intros [Hnd Hk]. split; [by apply dict_set_NoDup|].
  intros k r' [[= -> ->]|H]%dict_set_elem; [done | auto].
Qed.

Lemma keyed_values (r : recommendation) (d : dict recommendation) :
  keyed d → (r ∈ dict_values d ↔ dict_get (rec_id r) d = Some r).
Proof.
  intros [Hnd Hk]. split.
  - intros ([k r'] & -> & Hin)%list_elem_of_fmap. simpl.
    rewrite (Hk _ _ Hin). by apply dict_get_elem_NoDup.
  - intros H%dict_get_Some_elem. apply list_elem_of_fmap. by exists (rec_id r, r).
Qed.

Lemma merge_cv_keyed (d : dict recommendation) (r : recommendation) :
  keyed d → keyed (merge_cv d r).
Proof.
  intros Hd. unfold merge_cv. destruct (dict_get _ _); [|by apply keyed_set].
  destruct (py_gt _ _); [by apply keyed_set | done].
Qed.

Lemma merge_collab_keyed (d : dict recommendation) (r : recommendation) :
  keyed d → keyed (merge_collab d r).
Proof.
  intros Hd. unfold merge_collab. destruct (dict_get _ _); [done | by apply keyed_set].
Qed.

Lemma foldl_keyed (f : dict recommendation → recommendation → dict recommendation)
    (l : list recommendation) (d : dict recommendation) :
  (∀ d r, keyed d → keyed (f d r)) → keyed d → keyed (foldl f d l).
Proof.
  intros Hf. revert d. induction l as [|r l IH]; simpl; intros d Hd; [done|].
  apply IH, Hf, Hd.
Qed.

Lemma all_recs_cv_keyed (content_recs cv_recs : list recommendation) :
  keyed (all_recs_cv content_recs cv_recs).
Proof.
  apply foldl_keyed; [apply merge_cv_keyed|].
  apply foldl_keyed; [intros d r; apply keyed_set | apply keyed_nil].
Qed.

Lemma all_recs_collab_keyed (content_recs cv_recs collab_recs : list recommendation) :
  keyed (all_recs_collab content_recs cv_recs collab_recs).
Proof.
  apply foldl_keyed; [apply merge_collab_keyed | apply all_recs_cv_keyed].
Qed.

(** *** How one key fares through each of the three passes *)

Lemma content_pass_other (k : Z) (l : list recommendation) (d : dict recommendation) :
  (∀ r, r ∈ l → rec_id r ≠ k) →
  dict_get k (foldl (λ all_recs rec, dict_set (rec_id rec) rec all_recs) d l)
  = dict_get k d.
Proof.
  revert d. induction l as [|x l IH]; simpl; intros d Hne; [done|].
  rewrite IH.
  - apply dict_get_set_ne, Hne. left.
  - intros r Hr. apply Hne. by right.
Qed.

Lemma content_pass_get (c : recommendation) (l : list recommendation)
    (d : dict recommendation) :
  NoDup (map rec_id l) → c ∈ l →
  dict_get (rec_id c)
    (foldl (λ all_recs rec, dict_set (rec_id rec) rec all_recs) d l) = Some c.
Proof.
  revert d. induction l as [|x l IH]; simpl; intros d Hnd Hc.
  - inversion Hc.
  - apply NoDup_cons in Hnd as [Hx Hnd].
    apply elem_of_cons in Hc as [->|Hc]; [|auto].
    rewrite content_pass_other; [apply dict_get_set_eq|].
    intros r Hr E. apply Hx. rewrite <- E. apply list_elem_of_fmap. by exists r.
Qed.

Lemma cv_pass_other (k : Z) (l : list recommendation) (d : dict recommendation) :
  (∀ r, r ∈ l → rec_id r ≠ k) →
  dict_get k (foldl merge_cv d l) = dict_get k d.
Proof.
  revert d. induction l as [|x l IH]; simpl; intros d Hne; [done|].
  rewrite IH; [|intros r Hr; apply Hne; by right].
  assert (rec_id x ≠ k) as Hx by (apply Hne; left).
  unfold merge_cv. destruct (dict_get (rec_id x) d); [|by apply dict_get_set_ne].
  destruct (py_gt _ _); [by apply dict_get_set_ne | done].
Qed.

Lemma cv_pass_get (c v : recommendation) (l : list recommendation)
    (d : dict recommendation) :
  NoDup (map rec_id l) → v ∈ l → dict_get (rec_id v) d = Some c →
  dict_get (rec_id v) (foldl merge_cv d l)
  = Some (if py_gt (rec_similarity v) (rec_similarity c) then v else c).
Proof.
  revert d. induction l as [|x l IH]; simpl; intros d Hnd Hv Hd.
  - inversion Hv.
  - apply NoDup_cons in Hnd as [Hx Hnd].
    apply elem_of_cons in Hv as [->|Hv].
    + rewrite cv_pass_other.
      * unfold merge_cv. rewrite Hd.
        destruct (py_gt _ _); [apply dict_get_set_eq | done].
      * intros r Hr E. apply Hx. rewrite <- E. apply list_elem_of_fmap. by exists r.
    + apply IH; [done | done |].
      assert (rec_id x ≠ rec_id v) as Hne.
      { intros E. apply Hx. rewrite E. apply list_elem_of_fmap. by exists v. }
      unfold merge_cv. destruct (dict_get (rec_id x) d).
      * destruct (py_gt (rec_similarity x) _); [by rewrite dict_get_set_ne | done].
      * by rewrite dict_get_set_ne.
Qed.

Lemma cv_pass_absent (v : recommendation) (l : list recommendation)
    (d : dict recommendation) :
  NoDup (map rec_id l) → v ∈ l → dict_get (rec_id v) d = None →
  dict_get (rec_id v) (foldl merge_cv d l) = Some v.
Proof.
  revert d. induction l as [|x l IH]; simpl; intros d Hnd Hv Hd.
  - inversion Hv.
  - apply NoDup_cons in Hnd as [Hx Hnd].
    apply elem_of_cons in Hv as [->|Hv].
    + rewrite cv_pass_other.
      * unfold merge_cv. rewrite Hd. apply dict_get_set_eq.
      * intros r Hr E. apply Hx. rewrite <- E. apply list_elem_of_fmap. by exists r.
    + apply IH; [done | done |].
      assert (rec_id x ≠ rec_id v) as Hne.
      { intros E. apply Hx. rewrite E. apply list_elem_of_fmap. by exists v. }
      unfold merge_cv. destruct (dict_get (rec_id x) d).
      * destruct (py_gt (rec_similarity x) _); [by rewrite dict_get_set_ne | done].
      * by rewrite dict_get_set_ne.
Qed.

Lemma collab_pass_keeps (k : Z) (e : recommendation) (l : list recommendation)
    (d : dict recommendation) :
  dict_get k d = Some e → dict_get k (foldl merge_collab d l) = Some e.
Proof.
  revert d. induction l as [|x l IH]; simpl; intros d Hd; [done|].
  apply IH. unfold merge_collab.
  destruct (dict_get (rec_id x) d) eqn:E; [done|].
  rewrite dict_get_set_ne; [done|]. intros Heq. congruence.
Qed.

Lemma collab_pass_absent (r : recommendation) (l : list recommendation)
    (d : dict recommendation) :
  NoDup (map rec_id l) → r ∈ l → dict_get (rec_id r) d = None →
  dict_get (rec_id r) (foldl merge_collab d l) = Some r.
Proof.
  revert d. induction l as [|x l IH]; simpl; intros d Hnd Hr Hd.
  - inversion Hr.
  - apply NoDup_cons in Hnd as [Hx Hnd].
    apply elem_of_cons in Hr as [->|Hr].
    + apply collab_pass_keeps. unfold merge_collab. rewrite Hd.
      apply dict_get_set_eq.
    + apply IH; [done | done |].
      assert (rec_id x ≠ rec_id r) as Hne.
      { intros E. apply Hx. rewrite E. apply list_elem_of_fmap. by exists r. }
      unfold merge_collab. destruct (dict_get (rec_id x) d); [done|].
      by rewrite dict_get_set_ne.
Qed.

Lemma foldl_length_step {A : Type} (f : dict recommendation → A → dict recommendation)
    (l : list A) (d : dict recommendation) :
  (∀ d x, length (f d x) ≤ S (length d)) →
  length (foldl f d l) ≤ length d + length l.
Proof.
  intros Hf. revert d. induction l as [|x l IH]; simpl; intros d; [lia|].
  specialize (IH (f d x)). specialize (Hf d x). lia.
Qed.

Lemma merge_cv_length (d : dict recommendation) (r : recommendation) :
  length (merge_cv d r) ≤ S (length d).
Proof.
  unfold merge_cv. destruct (dict_get _ _); [|apply dict_set_length].
  destruct (py_gt _ _); [apply dict_set_length | lia].
Qed.

Lemma merge_collab_length (d : dict recommendation) (r : recommendation) :
  length (merge_collab d r) ≤ S (length d).
Proof.
  unfold merge_collab. destruct (dict_get _ _); [lia | apply dict_set_length].
Qed.

Lemma combine_length (content_recs cv_recs collab_recs : list recommendation) :
  length (combine content_recs cv_recs collab_recs)
  ≤ length content_recs + length cv_recs + length collab_recs.
Proof.
  unfold combine, dict_values, all_recs_collab, all_recs_cv, content_dict.
  rewrite length_map.
  etrans; [apply foldl_length_step, merge_collab_length|].
  apply Nat.add_le_mono_r.
  etrans; [apply foldl_length_step, merge_cv_length|].
  apply Nat.add_le_mono_r.
  etrans; [apply foldl_length_step; intros d x; apply dict_set_length|].
  simpl. lia.
Qed.

(** ** The combiner: precedence between the strategies *)

(** C1. When a posting id is in both the Content-based and the CV-based
    results (each list holding an id once), the entry of the merged
    mapping for that id, after the CV pass and in the mapping that is
    returned, is the CV-based record if its similarity is strictly
    greater than the Content-based one, and the Content-based record if
    it is less or equal; the returned list holds that record and no
    other record of that id. *)
Theorem combiner_cv_precedence
    (content_recs cv_recs collab_recs : list recommendation)
    (c v : recommendation) :
  NoDup (map rec_id content_recs) → NoDup (map rec_id cv_recs) →
  c ∈ content_recs → v ∈ cv_recs → rec_id c = rec_id v →
  ∃ merged,
    dict_get (rec_id v) (all_recs_cv content_recs cv_recs) = Some merged
    ∧ dict_get (rec_id v) (all_recs_collab content_recs cv_recs collab_recs)
      = Some merged
    ∧ merged ∈ combine content_recs cv_recs collab_recs
    ∧ (∀ r, r ∈ combine content_recs cv_recs collab_recs →
            rec_id r = rec_id v → r = merged)
    ∧ (py_gt (rec_similarity v) (rec_similarity c) = true → merged = v)
    ∧ (py_gt (rec_similarity v) (rec_similarity c) = false → merged = c).
Proof.
  intros Hc Hv Hcin Hvin Hid.
  set (merged := if py_gt (rec_similarity v) (rec_similarity c) then v else c).
  assert (rec_id merged = rec_id v) as Hmid.
  { unfold merged. by destruct (py_gt _ _). }
  assert (dict_get (rec_id v) (all_recs_cv content_recs cv_recs) = Some merged)
    as Hcv.
  { apply cv_pass_get; [done | done |]. rewrite <- Hid.
    by apply content_pass_get. }
  assert (dict_get (rec_id v) (all_recs_collab content_recs cv_recs collab_recs)
          = Some merged) as Hfinal by by apply collab_pass_keeps.
  exists merged. split; [done|]. split; [done|].
  pose proof (all_recs_collab_keyed content_recs cv_recs collab_recs) as Hk.
  split; [|split; [|split]].
  - apply keyed_values; [done|]. by rewrite Hmid.
  - intros r Hr Hrid. apply (keyed_values _ _ Hk) in Hr.
    rewrite Hrid in Hr. congruence.
  - intros Hgt. unfold merged. by rewrite Hgt.
  - intros Hle. unfold merged. by rewrite Hle.
Qed.

Lemma combiner_cv_precedence_witness :
  ∃ merged,
    dict_get 10%Z (all_recs_cv [Demo.tag_rec] [Demo.doc_rec]) = Some merged
    ∧ dict_get 10%Z
        (all_recs_collab [Demo.tag_rec] [Demo.doc_rec] [Demo.peer_rec])
      = Some merged
    ∧ merged ∈ combine [Demo.tag_rec] [Demo.doc_rec] [Demo.peer_rec]
    ∧ (∀ r, r ∈ combine [Demo.tag_rec] [Demo.doc_rec] [Demo.peer_rec] →
            rec_id r = 10%Z → r = merged)
    ∧ (py_gt (rec_similarity Demo.doc_rec) (rec_similarity Demo.tag_rec) = true →
       merged = Demo.doc_rec)
    ∧ (py_gt (rec_similarity Demo.doc_rec) (rec_similarity Demo.tag_rec) = false →
       merged = Demo.tag_rec).
Proof.
  apply (combiner_cv_precedence [Demo.tag_rec] [Demo.doc_rec] [Demo.peer_rec]
           Demo.tag_rec Demo.doc_rec).
  - apply NoDup_singleton.
  - apply NoDup_singleton.
  - apply list_elem_of_singleton. reflexivity.
  - apply list_elem_of_singleton. reflexivity.
  - reflexivity.
Defined.

Example combiner_prefers_stronger_cv :
  combine [Demo.tag_rec] [Demo.doc_rec] [Demo.peer_rec] = [Demo.doc_rec].
Proof. reflexivity. Qed.

Example combiner_keeps_content_on_weaker_cv :
  combine [Demo.tag_rec] [Demo.weak_doc_rec] [] = [Demo.tag_rec].
Proof. reflexivity. Qed.

(** C3. A Collaborative record whose posting id already has an entry
    after the Content-based and CV-based passes leaves that entry as it
    is, whatever the two similarities are: the returned mapping and the
    returned list hold the earlier record under that id.  A
    Collaborative record is entered only when its id is absent (the
    collaborative list holding an id once). *)
Theorem combiner_collab_never_overrides
    (content_recs cv_recs collab_recs : list recommendation)
    (r : recommendation) :
  r ∈ collab_recs →
  (∀ existing,
      dict_get (rec_id r) (all_recs_cv content_recs cv_recs) = Some existing →
      dict_get (rec_id r) (all_recs_collab content_recs cv_recs collab_recs)
      = Some existing
      ∧ existing ∈ combine content_recs cv_recs collab_recs
      ∧ ∀ r', r' ∈ combine content_recs cv_recs collab_recs →
              rec_id r' = rec_id r → r' = existing)
  ∧ (dict_get (rec_id r) (all_recs_cv content_recs cv_recs) = None →
     NoDup (map rec_id collab_recs) →
     dict_get (rec_id r) (all_recs_collab content_recs cv_recs collab_recs)
     = Some r).
Proof.
  intros Hr. split.
  - intros existing Hex.
    assert (dict_get (rec_id r)
              (all_recs_collab content_recs cv_recs collab_recs)
            = Some existing) as Hfinal by by apply collab_pass_keeps.
    pose proof (all_recs_collab_keyed content_recs cv_recs collab_recs) as Hk.
    assert (rec_id existing = rec_id r) as Hid.
    { apply dict_get_Some_elem in Hfinal. by apply Hk in Hfinal. }
    split; [done|]. split.
    + apply keyed_values; [done|]. by rewrite Hid.
    + intros r' Hr' Hid'. apply (keyed_values _ _ Hk) in Hr'.
      rewrite Hid' in Hr'. congruence.
  - intros Habs Hnd. by apply collab_pass_absent.
Qed.

Lemma combiner_collab_never_overrides_witness :
  (∀ existing,
      dict_get 10%Z (all_recs_cv [Demo.tag_rec] []) = Some existing →
      dict_get 10%Z (all_recs_collab [Demo.tag_rec] [] [Demo.peer_rec])
      = Some existing
      ∧ existing ∈ combine [Demo.tag_rec] [] [Demo.peer_rec]
      ∧ ∀ r', r' ∈ combine [Demo.tag_rec] [] [Demo.peer_rec] →
              rec_id r' = 10%Z → r' = existing)
  ∧ (dict_get 10%Z (all_recs_cv [Demo.tag_rec] []) = None →
     NoDup (map rec_id [Demo.peer_rec]) →
     dict_get 10%Z (all_recs_collab [Demo.tag_rec] [] [Demo.peer_rec])
     = Some Demo.peer_rec).
Proof.
  apply (combiner_collab_never_overrides [Demo.tag_rec] [] [Demo.peer_rec]
           Demo.peer_rec).
  apply list_elem_of_singleton. reflexivity.
Defined.

Example combiner_ignores_stronger_peer :
  combine [Demo.tag_rec] [] [Demo.peer_rec] = [Demo.tag_rec].
Proof. reflexivity. Qed.

(** ** The scoring arithmetic *)

Lemma jaccard_quotient_pos (intersection union : Z) :
  (0 < union)%Z →
  jaccard_quotient intersection union
  = Ok (float_of_int intersection / float_of_int union)%float.
Proof.
  intros H. unfold jaccard_quotient, truediv.
  apply Z.ltb_lt in H as H'. rewrite H'.
  destruct (union =? 0)%Z eqn:E; [apply Z.eqb_eq in E; lia | done].
Qed.

Lemma jaccard_quotient_nonpos (intersection union : Z) :
  (union <= 0)%Z → jaccard_quotient intersection union = Ok 0%float.
Proof.
  intros H. unfold jaccard_quotient.
  destruct (0 <? union)%Z eqn:E; [apply Z.ltb_lt in E; lia | done].
Qed.

Lemma jaccard_quotient_ok (intersection union : Z) :
  ∃ q, jaccard_quotient intersection union = Ok q.
Proof.
  destruct (Z_lt_le_dec 0 union).
  - rewrite jaccard_quotient_pos by done. eauto.
  - rewrite jaccard_quotient_nonpos by done. eauto.
Qed.

Lemma skill_similarity_of_ok (cv_skills required_skills : gset string) :
  ∃ q, skill_similarity_of cv_skills required_skills = Ok q.
Proof.
  unfold skill_similarity_of. destruct (decide _); [eauto|].
  apply jaccard_quotient_ok.
Qed.

(** ** What each tag-based scorer returns *)

Lemma required_skills_truthy (internship : internship_row) :
  required_skills_of internship ≠ ∅ →
  Py.truthy (internship_required_skills internship) = true.
Proof.
  unfold required_skills_of.
  destruct (internship_required_skills internship) as [[|c s]|]; done.
Qed.

Lemma content_score_ok (db : database) (student_skills : gset string)
    (internship : internship_row) :
  ∃ r, content_score db student_skills internship = Ok r.
Proof.
  unfold content_score. destruct (decide _); [eauto|].
  destruct (jaccard_quotient_ok
              (Z.of_nat (size (student_skills ∩ required_skills_of internship)))
              (Z.of_nat (size (student_skills ∪ required_skills_of internship))))
    as [q ->].
  simpl. destruct (py_gt q _); eauto.
Qed.

Lemma content_score_Some (db : database) (student_skills : gset string)
    (internship : internship_row) (r : recommendation) :
  content_score db student_skills internship = Ok (Some r) →
  required_skills_of internship ≠ ∅
  ∧ r = content_rec db internship (rec_similarity r)
  ∧ py_gt (rec_similarity r) 0.2 = true.
Proof.
  unfold content_score. destruct (decide _) as [|Hne]; [done|].
  destruct (jaccard_quotient _ _) as [q|]; simpl; [|done].
  destruct (py_gt q _) eqn:E; [|done].
  intros [= <-]. by simpl.
Qed.

Lemma content_based_recommendations_spec (db : database) (user_id : Z) :
  ∃ l, content_based_recommendations db user_id = Ok l
       ∧ length l ≤ 5
       ∧ ∀ r, r ∈ l →
           ∃ internship, internship ∈ internships db
             ∧ required_skills_of internship ≠ ∅
             ∧ r = content_rec db internship (rec_similarity r)
             ∧ py_gt (rec_similarity r) 0.2 = true.
Proof.
  unfold content_based_recommendations.
  destruct (find _ _) as [profile|]; [|exists []; split_and!; [done | simpl; lia | by intros r ?%elem_of_nil]].
  destruct (profile_skills profile) as [[|c s]|];
    try (exists []; split_and!; [done | simpl; lia | by intros r ?%elem_of_nil]).
  destruct (collect_spec (content_score db (skill_set (String c s))) (internships db))
    as (rs & -> & _ & Hin).
  { intros x _. apply content_score_ok. }
  simpl. eexists. split; [done|]. split; [apply length_top|].
  intros r Hr%elem_of_top. apply Hin in Hr as (i & Hi & Hs).
  apply content_score_Some in Hs. exists i. tauto.
Qed.

Lemma cv_score_ok (db : database) (cv : cv_row) (cv_skills : gset string)
    (internship : internship_row) :
  ∃ r, cv_score db cv cv_skills internship = Ok r.
Proof.
  unfold cv_score. destruct (decide _); [eauto|].
  destruct (skill_similarity_of_ok cv_skills (required_skills_of internship))
    as [q ->].
  simpl. destruct (py_gt _ _); eauto.
Qed.

Lemma cv_score_Some (db : database) (cv : cv_row) (cv_skills : gset string)
    (internship : internship_row) (r : recommendation) :
  cv_score db cv cv_skills internship = Ok (Some r) →
  required_skills_of internship ≠ ∅
  ∧ rec_id r = internship_id internship
  ∧ rec_required_skills r = internship_required_skills internship
  ∧ rec_type r = "CV-based"
  ∧ py_gt (rec_similarity r) 0.15 = true.
Proof.
  unfold cv_score. destruct (decide _) as [|Hne]; [done|].
  destruct (skill_similarity_of _ _) as [q|]; simpl; [|done].
  destruct (py_gt _ _) eqn:E; [|done].
  intros [= <-]. by simpl.
Qed.

Lemma cv_candidates_spec (db : database) (cv : cv_row) :
  ∃ rs, cv_candidates db cv = Ok rs
        ∧ ∀ r, r ∈ rs ↔
            ∃ internship, internship ∈ internships db
              ∧ cv_score db cv (cv_skills_of cv) internship = Ok (Some r).
Proof.
  unfold cv_candidates.
  destruct (collect_spec (cv_score db cv (cv_skills_of cv)) (internships db))
    as (rs & Hrs & _ & Hin).
  { intros x _. apply cv_score_ok. }
  eauto.
Qed.

Lemma cv_based_recommendations_spec (db : database) (user_id : Z) :
  ∃ l, cv_based_recommendations db user_id = Ok l
       ∧ length l ≤ 5
       ∧ ∀ r, r ∈ l →
           ∃ internship, internship ∈ internships db
             ∧ required_skills_of internship ≠ ∅
             ∧ rec_id r = internship_id internship
             ∧ rec_required_skills r = internship_required_skills internship
             ∧ rec_type r = "CV-based"
             ∧ py_gt (rec_similarity r) 0.15 = true.
Proof.
  unfold cv_based_recommendations.
  destruct (find _ _) as [cv|]; [|exists []; split_and!; [done | simpl; lia | by intros r ?%elem_of_nil]].
  destruct (cv_candidates_spec db cv) as (rs & -> & Hin).
  simpl. eexists. split; [done|]. split; [apply length_top|].
  intros r Hr%elem_of_top. apply Hin in Hr as (i & Hi & Hs).
  apply cv_score_Some in Hs. exists i. tauto.
Qed.

(** ** Each scorer returns a posting id once *)

Lemma collect_sublist {A B : Type} (turn : A → result (option B))
    (f : A → Z) (g : B → Z) (l : list A) (rs : list B) :
  (∀ x y, turn x = Ok (Some y) → g y = f x) →
  collect turn l = Ok rs → sublist (map g rs) (map f l).
Proof.
  intros Hid. revert rs. induction l as [|x l IH]; simpl; intros rs.
  - intros [= <-]. constructor.
  - destruct (turn x) as [r|] eqn:Hx; simpl; [|done].
    destruct (collect turn l) as [rs'|]; simpl; [|done].
    intros [= <-]. destruct r as [y|]; simpl.
    + rewrite (Hid x y Hx). apply sublist_skip. by apply IH.
    + apply sublist_cons. by apply IH.
Qed.

Lemma top_ids_NoDup (n : nat) (rs : list recommendation) :
  NoDup (map rec_id rs) →
  NoDup (map rec_id (take n (sort_desc rec_similarity rs))).
Proof.
  intros Hnd.
  eapply sublist_NoDup; [|apply (fmap_sublist rec_id), sublist_take].
  change (NoDup (rec_id <$> sort_desc rec_similarity rs)).
  by rewrite (sort_desc_perm rec_similarity rs).
Qed.

Lemma content_ids_NoDup (db : database) (user_id : Z) (l : list recommendation) :
  NoDup (map internship_id (internships db)) →
  content_based_recommendations db user_id = Ok l →
  NoDup (map rec_id l).
Proof.
  intros Hnd. unfold content_based_recommendations.
  destruct (find _ _) as [profile|]; [|intros [= <-]; constructor].
  destruct (profile_skills profile) as [[|c s]|]; try (intros [= <-]; constructor).
  destruct (collect _ _) as [rs|] eqn:Hrs; simpl; [|done].
  intros [= <-]. apply top_ids_NoDup.
  eapply sublist_NoDup; [exact Hnd|].
  eapply collect_sublist; [|exact Hrs].
  intros x y Hy. apply content_score_Some in Hy as (_ & -> & _). done.
Qed.

Lemma cv_ids_NoDup (db : database) (user_id : Z) (l : list recommendation) :
  NoDup (map internship_id (internships db)) →
  cv_based_recommendations db user_id = Ok l →
  NoDup (map rec_id l).
Proof.
  intros Hnd. unfold cv_based_recommendations, cv_candidates.
  destruct (find _ _) as [cv|]; [|intros [= <-]; constructor].
  destruct (collect _ _) as [rs|] eqn:Hrs; simpl; [|done].
  intros [= <-]. apply top_ids_NoDup.
  eapply sublist_NoDup; [exact Hnd|].
  eapply collect_sublist; [|exact Hrs].
  intros x y Hy. by apply cv_score_Some in Hy as (_ & ? & _).
Qed.

(** ** The collaborative scorer *)

Lemma add_application_keys (k : Z) (d : dict (gset Z)) (a : application_row) :
  k ∈ dict_keys (add_application d a) → k = app_student_id a ∨ k ∈ dict_keys d.
Proof.
  unfold add_application. intros [H|H]%dict_keys_set; [by left|].
  destruct (dict_get (app_student_id a) d); [by right|].
  by apply dict_keys_set in H.
Qed.

Lemma user_items_keys (k : Z) (l : list application_row) (d : dict (gset Z)) :
  k ∈ dict_keys (foldl add_application d l) →
  k ∈ dict_keys d ∨ ∃ a, a ∈ l ∧ app_student_id a = k.
Proof.
  revert d. induction l as [|a l IH]; simpl; intros d H; [by left|].
  apply IH in H as [H|(a' & Ha' & Hk)].
  - apply add_application_keys in H as [->|H]; [|by left].
    right. exists a. split; [left | done].
  - right. exists a'. split; [by right | done].
Qed.

Lemma user_items_absent (user_id : Z) (all_applications : list application_row) :
  (∀ a, a ∈ all_applications → app_student_id a ≠ user_id) →
  dict_get user_id (user_items_of all_applications) = None.
Proof.
  intros Hno. apply dict_get_None_keys. intros H.
  apply user_items_keys in H as [H|(a & Ha & Hk)]; [inversion H|].
  by apply (Hno a).
Qed.

(** A score that is a zero or is not a number. *)
Lemma zero_dividend (y : float) :
  let q := (float_of_int 0 / y)%float in
  ((∃ s, Prim2SF q = S754_zero s) ∨ Prim2SF q = S754_nan)
  ∧ py_gt q 0 = false.
Proof.
  intros q. unfold py_gt, q.
  rewrite FloatAxioms.ltb_spec, FloatAxioms.div_spec.
  change (Prim2SF (float_of_int 0)) with (S754_zero false).
  change (Prim2SF 0) with (S754_zero false).
  destruct (Prim2SF y); simpl; eauto.
Qed.

(** Against an empty application set no quotient is positive. *)
Lemma zero_quotient (union : Z) :
  ∃ q, jaccard_quotient 0 union = Ok q
       ∧ ((∃ s, Prim2SF q = S754_zero s) ∨ Prim2SF q = S754_nan)
       ∧ py_gt q 0 = false.
Proof.
  destruct (Z_lt_le_dec 0 union).
  - rewrite jaccard_quotient_pos by done. eexists. split; [done|].
    apply zero_dividend.
  - rewrite jaccard_quotient_nonpos by done. exists 0%float.
    split; [done|]. split; [left; by exists false | done].
Qed.

Lemma similar_students_of_empty (user_id : Z) (items : list (Z * gset Z)) :
  similar_students_of user_id ∅ items = Ok [].
Proof.
  induction items as [|[student_id apps] items IH]; simpl; [done|].
  destruct (student_id =? user_id)%Z; [done|].
  rewrite (left_absorb_L ∅ (∩)), size_empty. change (Z.of_nat 0) with 0%Z.
  destruct (zero_quotient (Z.of_nat (size ((∅ : gset Z) ∪ apps))))
    as (q & -> & _ & Hq).
  simpl. rewrite IH. simpl. by rewrite Hq.
Qed.

Lemma similar_students_of_spec (user_id : Z) (current_user_apps : gset Z)
    (items : list (Z * gset Z)) :
  ∃ l, similar_students_of user_id current_user_apps items = Ok l
       ∧ ∀ student_id similarity, (student_id, similarity) ∈ l →
           student_id ∈ dict_keys items
           ∧ student_id ≠ user_id
           ∧ py_gt similarity 0 = true.
Proof.
  induction items as [|[student_id apps] items (l & IH & Hl)]; simpl.
  - exists []. split; [done|]. by intros s q ?%elem_of_nil.
  - unfold dict_keys. simpl. destruct (student_id =? user_id)%Z eqn:E.
    + exists l. split; [done|]. intros s q Hs.
      destruct (Hl s q Hs) as (? & ? & ?). split; [by right | done].
    + apply Z.eqb_neq in E.
      destruct (jaccard_quotient_ok
                  (Z.of_nat (size (current_user_apps ∩ apps)))
                  (Z.of_nat (size (current_user_apps ∪ apps)))) as [q ->].
      simpl. rewrite IH. simpl. eexists. split; [done|].
      intros s q' Hs. destruct (py_gt q 0) eqn:Hq.
      * apply elem_of_cons in Hs as [[= -> ->]|Hs].
        -- split; [left|]. by split.
        -- destruct (Hl s q' Hs) as (? & ? & ?). split; [by right | done].
      * destruct (Hl s q' Hs) as (? & ? & ?). split; [by right | done].
Qed.

Lemma dict_get_is_Some {V : Type} (k : Z) (d : dict V) :
  k ∈ dict_keys d → ∃ v, dict_get k d = Some v.
Proof.
  intros H. destruct (dict_get k d) eqn:E; [eauto|].
  by apply dict_get_None_keys in E.
Qed.

Section EngineProperties.

Variable set_iter : gset Z → list Z.

Lemma visit_students_ok (db : database) (user_items : dict (gset Z))
    (students : list (Z * float)) (st : list recommendation * gset Z) :
  (∀ student_id similarity, (student_id, similarity) ∈ students →
     student_id ∈ dict_keys user_items) →
  ∃ st', visit_students set_iter db user_items students st = Ok st'.
Proof.
  revert st. induction students as [|[student_id similarity] students IH];
    simpl; intros st Hkeys; [eauto|].
  destruct (dict_get_is_Some student_id user_items) as [apps ->].
  { eapply Hkeys. left. }
  apply IH. intros s q Hs. eapply Hkeys. by right.
Qed.

Lemma collaborative_filtering_spec (db : database) (user_id : Z) :
  ∃ l, collaborative_filtering set_iter db user_id = Ok l ∧ length l ≤ 5.
Proof.
  unfold collaborative_filtering.
  destruct (similar_students_of_spec user_id
              (default ∅ (dict_get user_id (user_items_of (applications db))))
              (user_items_of (applications db))) as (l & -> & Hl).
  simpl.
  destruct (visit_students_ok db (user_items_of (applications db))
              (take 3 (sort_desc snd l))
              ([], default ∅ (dict_get user_id (user_items_of (applications db)))))
    as [st' ->].
  { intros s q Hs%elem_of_top. by apply Hl in Hs as (? & _). }
  simpl. eexists. split; [done|]. rewrite length_take. lia.
Qed.

Lemma collaborative_filtering_no_applications (db : database) (user_id : Z) :
  (∀ a, a ∈ applications db → app_student_id a ≠ user_id) →
  collaborative_filtering set_iter db user_id = Ok [].
Proof.
  intros Hno. unfold collaborative_filtering.
  rewrite user_items_absent by done. simpl.
  by rewrite similar_students_of_empty.
Qed.

End EngineProperties.

(** ** Empty inputs *)

(** C5. For a seeker who appears in no application, the application set
    of the seeker is empty, the similarity of every other student's
    application set against it is a zero (or, were the union empty too,
    undefined) and fails the test [similarity > 0], and
    [collaborative_filtering] returns the empty list. *)
Theorem collaborative_filtering_without_applications
    (set_iter : gset Z → list Z) (db : database) (user_id : Z) :
  (∀ a, a ∈ applications db → app_student_id a ≠ user_id) →
  let user_items := user_items_of (applications db) in
  let current_user_apps := default ∅ (dict_get user_id user_items) in
  current_user_apps = ∅
  ∧ (∀ student_id apps, (student_id, apps) ∈ user_items →
       ∃ similarity,
         jaccard_quotient (Z.of_nat (size (current_user_apps ∩ apps)))
                          (Z.of_nat (size (current_user_apps ∪ apps)))
         = Ok similarity
         ∧ ((∃ s, Prim2SF similarity = S754_zero s)
            ∨ Prim2SF similarity = S754_nan)
         ∧ py_gt similarity 0 = false)
  ∧ collaborative_filtering set_iter db user_id = Ok [].
Proof.
  intros Hno user_items current_user_apps.
  assert (current_user_apps = ∅) as Hcur.
  { unfold current_user_apps, user_items. by rewrite user_items_absent. }
  split; [done|]. split.
  - intros student_id apps _. rewrite Hcur.
    rewrite (left_absorb_L ∅ (∩)), size_empty. apply zero_quotient.
  - by apply collaborative_filtering_no_applications.
Qed.

Lemma collaborative_filtering_without_applications_witness :
  collaborative_filtering elements Demo.db 2 = Ok [].
Proof.
  apply (collaborative_filtering_without_applications elements Demo.db 2).
  apply Forall_forall. repeat constructor; discriminate.
Defined.

(** C4. For a seeker whose skill string is empty or missing, who has no
    CV, and who appears in no application, [get_recommendations] returns
    the empty list. *)
Theorem get_recommendations_of_blank_seeker
    (set_iter : gset Z → list Z) (db : database) (user_id : Z) :
  (∀ profile,
     find (λ p, (profile_user_id p =? user_id)%Z) (profiles db) = Some profile →
     Py.truthy (profile_skills profile) = false) →
  find (λ cv, (cv_user_id cv =? user_id)%Z) (cvs db) = None →
  (∀ a, a ∈ applications db → app_student_id a ≠ user_id) →
  get_recommendations set_iter db user_id = Ok [].
Proof.
  intros Hskills Hcv Hno. unfold get_recommendations.
  assert (content_based_recommendations db user_id = Ok []) as ->.
  { unfold content_based_recommendations.
    destruct (find _ (profiles db)) as [profile|]; [|done].
    specialize (Hskills profile eq_refl).
    by destruct (profile_skills profile) as [[|c s]|]. }
  assert (cv_based_recommendations db user_id = Ok []) as ->.
  { unfold cv_based_recommendations. by rewrite Hcv. }
  rewrite collaborative_filtering_no_applications by done.
  reflexivity.
Qed.

Lemma get_recommendations_of_blank_seeker_witness :
  get_recommendations elements Demo.db 2 = Ok [].
Proof.
  apply (get_recommendations_of_blank_seeker elements Demo.db 2).
  - intros profile [= <-]. reflexivity.
  - reflexivity.
  - apply Forall_forall. repeat constructor; discriminate.
Defined.

(** ** Sizes and exceptions *)

(** C7. Each of the three scorers returns a list of at most 5 records,
    and [get_recommendations] returns a list of at most 15. *)
Theorem result_sizes (set_iter : gset Z → list Z) (db : database) (user_id : Z) :
  ∃ content_recs cv_recs collab_recs recs,
    content_based_recommendations db user_id = Ok content_recs
    ∧ length content_recs ≤ 5
    ∧ cv_based_recommendations db user_id = Ok cv_recs
    ∧ length cv_recs ≤ 5
    ∧ collaborative_filtering set_iter db user_id = Ok collab_recs
    ∧ length collab_recs ≤ 5
    ∧ get_recommendations set_iter db user_id = Ok recs
    ∧ 0 ≤ length recs ≤ 15.
Proof.
  destruct (content_based_recommendations_spec db user_id) as (a & Ha & Hla & _).
  destruct (cv_based_recommendations_spec db user_id) as (b & Hb & Hlb & _).
  destruct (collaborative_filtering_spec set_iter db user_id) as (c & Hc & Hlc).
  exists a, b, c, (combine a b c).
  split_and!; try done.
  - unfold get_recommendations. by rewrite Ha, Hb, Hc.
  - lia.
  - pose proof (combine_length a b c). lia.
Qed.

(** C8. The quotient [intersection / union if union > 0 else 0] divides
    only when the union is positive and is 0 otherwise, so it never
    raises; and none of the three scorers, nor [get_recommendations],
    raises on any snapshot and seeker. *)
Theorem scoring_never_divides_by_zero :
  (∀ intersection union : Z,
     (0 < union)%Z →
     jaccard_quotient intersection union
     = Ok (float_of_int intersection / float_of_int union)%float)
  ∧ (∀ intersection union : Z,
       (union <= 0)%Z → jaccard_quotient intersection union = Ok 0%float)
  ∧ (∀ intersection union : Z,
       truediv intersection union = Raise ZeroDivisionError ↔ union = 0%Z)
  ∧ (∀ cv_skills required_skills,
       ∃ q, skill_similarity_of cv_skills required_skills = Ok q)
  ∧ ∀ (set_iter : gset Z → list Z) (db : database) (user_id : Z),
      (∃ l, content_based_recommendations db user_id = Ok l)
      ∧ (∃ l, cv_based_recommendations db user_id = Ok l)
      ∧ (∃ l, collaborative_filtering set_iter db user_id = Ok l)
      ∧ (∃ l, get_recommendations set_iter db user_id = Ok l).
Proof.
  split; [apply jaccard_quotient_pos|].
  split; [apply jaccard_quotient_nonpos|].
  split.
  { intros i u. unfold truediv. destruct (u =? 0)%Z eqn:E.
    - apply Z.eqb_eq in E. done.
    - apply Z.eqb_neq in E. split; [discriminate | done]. }
  split; [apply skill_similarity_of_ok|].
  intros set_iter db user_id.
  destruct (content_based_recommendations_spec db user_id) as (a & Ha & _).
  destruct (cv_based_recommendations_spec db user_id) as (b & Hb & _).
  destruct (collaborative_filtering_spec set_iter db user_id) as (c & Hc & _).
  split_and!; [eauto | eauto | eauto |].
  exists (combine a b c). unfold get_recommendations. by rewrite Ha, Hb, Hc.
Qed.

(** ** Postings without required skills *)

Lemma permutation_of_pair {A : Type} (a b : A) (l : list A) :
  l ≡ₚ [a; b] → l = [a; b] ∨ l = [b; a].
Proof.
  intros H. symmetry in H. by apply Permutation_length_2_inv in H.
Qed.

(** C9. The collaborative scorer does not look at the required skills:
    on the demo snapshot it returns, for seeker 1, the posting whose
    required-skill string is empty, as a Collaborative record.  Every
    record of the Content-based scorer and of the CV-based scorer comes
    from a posting whose parsed required-skill set is not empty. *)
Theorem collaborative_has_no_required_skills_filter
    (set_iter : gset Z → list Z) :
  (∀ X : gset Z, set_iter X ≡ₚ elements X) →
  (∃ db user_id l r internship,
      collaborative_filtering set_iter db user_id = Ok l
      ∧ r ∈ l
      ∧ rec_type r = "Collaborative"
      ∧ internship ∈ internships db
      ∧ rec_id r = internship_id internship
      ∧ rec_required_skills r = internship_required_skills internship
      ∧ internship_required_skills internship = Some ""
      ∧ required_skills_of internship = ∅)
  ∧ (∀ db user_id l r,
       content_based_recommendations db user_id = Ok l → r ∈ l →
       ∃ internship, internship ∈ internships db
         ∧ rec_id r = internship_id internship
         ∧ rec_required_skills r = internship_required_skills internship
         ∧ required_skills_of internship ≠ ∅)
  ∧ (∀ db user_id l r,
       cv_based_recommendations db user_id = Ok l → r ∈ l →
       ∃ internship, internship ∈ internships db
         ∧ rec_id r = internship_id internship
         ∧ rec_required_skills r = internship_required_skills internship
         ∧ required_skills_of internship ≠ ∅).
Proof.
  intros Hperm. split; [|split].
  - exists Demo.db, 1%Z, [collab_rec Demo.db Demo.open_posting 0.5],
      (collab_rec Demo.db Demo.open_posting 0.5), Demo.open_posting.
    split; [|split_and!; try reflexivity].
    + unfold collaborative_filtering.
      set (user_items := user_items_of (applications Demo.db)).
      assert (default ∅ (dict_get 1%Z user_items) = ({[10%Z]} : gset Z)) as Hown
        by (vm_compute; reflexivity).
      assert (similar_students_of 1 {[10%Z]} user_items = Ok [(3%Z, 0.5%float)])
        as Hsimilar by (vm_compute; reflexivity).
      assert (dict_get 3%Z user_items = Some ({[10%Z; 12%Z]} : gset Z)) as Hpeer
        by (vm_compute; reflexivity).
      clearbody user_items. rewrite Hown, Hsimilar. simpl. rewrite Hpeer.
      pose proof (Hperm {[10%Z; 12%Z]}) as Horder.
      assert (elements ({[10%Z; 12%Z]} : gset Z) = [10%Z; 12%Z]) as Hel
        by (vm_compute; reflexivity).
      rewrite Hel in Horder.
      apply permutation_of_pair in Horder as [-> | ->]; vm_compute; reflexivity.
    + apply list_elem_of_singleton. reflexivity.
    + unfold Demo.db. simpl. set_solver.
  - intros db user_id l r Hl Hr.
    destruct (content_based_recommendations_spec db user_id) as (l' & Hl' & _ & Hin).
    rewrite Hl in Hl'. injection Hl' as <-.
    destruct (Hin r Hr) as (i & Hi & Hne & Hrec & _).
    exists i. split; [done|]. rewrite Hrec. done.
  - intros db user_id l r Hl Hr.
    destruct (cv_based_recommendations_spec db user_id) as (l' & Hl' & _ & Hin).
    rewrite Hl in Hl'. injection Hl' as <-.
    destruct (Hin r Hr) as (i & Hi & Hne & Hid & Hreq & _).
    exists i. done.
Qed.

Lemma collaborative_has_no_required_skills_filter_witness :
  ∃ db user_id l r internship,
    collaborative_filtering elements db user_id = Ok l
    ∧ r ∈ l
    ∧ rec_type r = "Collaborative"
    ∧ internship ∈ internships db
    ∧ rec_id r = internship_id internship
    ∧ rec_required_skills r = internship_required_skills internship
    ∧ internship_required_skills internship = Some ""
    ∧ required_skills_of internship = ∅.
Proof.
  apply (collaborative_has_no_required_skills_filter elements).
  intros X. reflexivity.
Defined.

Example collaborative_emits_open_posting :
  collaborative_filtering elements Demo.db 1
  = Ok [collab_rec Demo.db Demo.open_posting 0.5].
Proof. vm_compute. reflexivity. Qed.

(** ** The threshold of the CV-based scorer *)

Lemma cv_score_unfold (db : database) (cv : cv_row) (internship : internship_row) :
  required_skills_of internship ≠ ∅ →
  ∃ skill_similarity,
    skill_similarity_of (cv_skills_of cv) (required_skills_of internship)
    = Ok skill_similarity
    ∧ total_similarity_of cv internship
      = Ok (skill_similarity + education_bonus_of cv internship
              + experience_bonus_of cv internship)%float
    ∧ cv_score db cv (cv_skills_of cv) internship
      = if py_gt (skill_similarity + education_bonus_of cv internship
                    + experience_bonus_of cv internship) 0.15
        then Ok (Some (cv_rec db internship skill_similarity
                         (education_bonus_of cv internship)
                         (experience_bonus_of cv internship)))
        else Ok None.
Proof.
  intros Hne. unfold total_similarity_of, cv_score.
  destruct (decide _) as [|_]; [done|].
  destruct (skill_similarity_of_ok (cv_skills_of cv) (required_skills_of internship))
    as [q Hq].
  exists q. rewrite Hq. simpl. by destruct (py_gt _ _).
Qed.

(** C6. For a posting with required skills, the CV-based scorer computes
    a total; if the total equals 0.15 the posting yields no record, and
    if the total is strictly greater than 0.15 it yields a record with
    that similarity, which is in the list before sorting and, when that
    list has at most 5 records, in the returned list.  No record of the
    scorer fails the test [similarity > 0.15], which 0.15 fails and
    0.150001 passes. *)
Theorem cv_threshold_is_strict (db : database) (cv : cv_row)
    (internship : internship_row) :
  internship ∈ internships db →
  required_skills_of internship ≠ ∅ →
  ∃ total candidates,
    total_similarity_of cv internship = Ok total
    ∧ cv_candidates db cv = Ok candidates
    ∧ (total = 0.15%float →
       cv_score db cv (cv_skills_of cv) internship = Ok None)
    ∧ (py_gt total 0.15 = true →
       ∃ r, cv_score db cv (cv_skills_of cv) internship = Ok (Some r)
            ∧ rec_id r = internship_id internship
            ∧ rec_similarity r = total
            ∧ r ∈ candidates
            ∧ (length candidates ≤ 5 →
               r ∈ take 5 (sort_desc rec_similarity candidates)))
    ∧ (∀ r, r ∈ candidates → py_gt (rec_similarity r) 0.15 = true)
    ∧ (∀ user_id l r,
         cv_based_recommendations db user_id = Ok l → r ∈ l →
         py_gt (rec_similarity r) 0.15 = true)
    ∧ py_gt 0.15 0.15 = false
    ∧ py_gt 0.150001 0.15 = true.
Proof.
  intros Hin Hne.
  destruct (cv_score_unfold db cv internship Hne) as (q & Hq & Htotal & Hscore).
  destruct (cv_candidates_spec db cv) as (candidates & Hcand & Hmem).
  eexists _, candidates. split; [exact Htotal|]. split; [done|].
  split_and!.
  - intros Heq. rewrite Hscore, Heq. reflexivity.
  - intros Hlt. rewrite Hscore, Hlt.
    eexists. split; [done|]. split; [done|]. split; [done|].
    assert (cv_rec db internship q (education_bonus_of cv internship)
              (experience_bonus_of cv internship) ∈ candidates) as Hr.
    { apply Hmem. exists internship. split; [done|]. by rewrite Hscore, Hlt. }
    split; [done|].
    intros Hlen. rewrite take_ge by (rewrite sort_desc_length; lia).
    by apply elem_of_sort_desc.
  - intros r (i & Hi & Hs)%Hmem. by apply cv_score_Some in Hs as (_ & _ & _ & _ & ?).
  - intros user_id l r Hl Hr.
    destruct (cv_based_recommendations_spec db user_id) as (l' & Hl' & _ & Hall).
    rewrite Hl in Hl'. injection Hl' as <-.
    by destruct (Hall r Hr) as (i & _ & _ & _ & _ & _ & ?).
  - reflexivity.
  - reflexivity.
Qed.

Lemma cv_threshold_is_strict_witness :
  ∃ total candidates,
    total_similarity_of Demo.plain_cv Demo.wide = Ok total
    ∧ cv_candidates Demo.threshold_db Demo.plain_cv = Ok candidates
    ∧ (total = 0.15%float →
       cv_score Demo.threshold_db Demo.plain_cv (cv_skills_of Demo.plain_cv)
         Demo.wide = Ok None)
    ∧ (py_gt total 0.15 = true →
       ∃ r, cv_score Demo.threshold_db Demo.plain_cv
              (cv_skills_of Demo.plain_cv) Demo.wide = Ok (Some r)
            ∧ rec_id r = internship_id Demo.wide
            ∧ rec_similarity r = total
            ∧ r ∈ candidates
            ∧ (length candidates ≤ 5 →
               r ∈ take 5 (sort_desc rec_similarity candidates)))
    ∧ (∀ r, r ∈ candidates → py_gt (rec_similarity r) 0.15 = true)
    ∧ (∀ user_id l r,
         cv_based_recommendations Demo.threshold_db user_id = Ok l → r ∈ l →
         py_gt (rec_similarity r) 0.15 = true)
    ∧ py_gt 0.15 0.15 = false
    ∧ py_gt 0.150001 0.15 = true.
Proof.
  apply (cv_threshold_is_strict Demo.threshold_db Demo.plain_cv Demo.wide).
  - apply list_elem_of_here.
  - apply (bool_decide_unpack _). vm_compute. reflexivity.
Defined.

Example total_of_wide :
  total_similarity_of Demo.plain_cv Demo.wide = Ok 0.15%float.
Proof. vm_compute. reflexivity. Qed.

Example total_of_narrow :
  py_gt (3 / 19) 0.15 = true
  ∧ total_similarity_of Demo.plain_cv Demo.narrow = Ok (3 / 19)%float.
Proof. split; vm_compute; reflexivity. Qed.

(** The total is the sum the machine computes: 1/20 + 0.1 is rounded to
    the float above 0.15, and passes the test. *)
Example total_of_graduate :
  total_similarity_of Demo.graduate_cv Demo.wide = Ok 0.15000000000000002%float
  ∧ py_gt 0.15000000000000002 0.15 = true.
Proof. split; vm_compute; reflexivity. Qed.

Example threshold_excludes_equal :
  option_map (map rec_id)
    (match cv_based_recommendations Demo.threshold_db 5 with
     | Ok l => Some l
     | Raise _ => None
     end) = Some [21%Z].
Proof. vm_compute. reflexivity. Qed.

(** ** Substring tests *)

Lemma startswith_spec (p s : string) :
  Py.startswith p s = true ↔ ∃ b, s = (p ++ b)%string.
Proof.
  revert s. induction p as [|a p IH]; intros s; simpl.
  - split; [eauto | done].
  - destruct s as [|c s].
    + split; [done | intros (b & [=])].
    + rewrite andb_true_iff, IH. split.
      * intros [->%Ascii.eqb_eq (b & ->)]. by exists b.
      * intros (b & [= -> ->]). split; [apply Ascii.eqb_refl | eauto].
Qed.

Lemma contains_spec (sub s : string) :
  Py.contains sub s = true ↔ ∃ a b, s = (a ++ sub ++ b)%string.
Proof.
  induction s as [|c s IH].
  - cbn [Py.contains]. rewrite orb_false_r, startswith_spec. split.
    + intros (b & ->). by exists EmptyString, b.
    + intros (a & b & H). destruct a as [|? ?]; [|done]. by exists b.
  - cbn [Py.contains]. rewrite orb_true_iff, startswith_spec, IH. split.
    + intros [(b & ->)|(a & b & ->)].
      * by exists EmptyString, b.
      * by exists (String c a), b.
    + intros (a & b & H). destruct a as [|c' a]; simpl in H.
      * left. by exists b.
      * right. injection H as -> ->. by exists a, b.
Qed.

Lemma lower_app (a b : string) :
  Py.lower (a ++ b)%string = (Py.lower a ++ Py.lower b)%string.
Proof. induction a as [|c a IH]; simpl; [done | by rewrite IH]. Qed.

Lemma contains_lower (sub s : string) :
  Py.contains sub s = true → Py.contains (Py.lower sub) (Py.lower s) = true.
Proof.
  intros (a & b & ->)%contains_spec. apply contains_spec.
  exists (Py.lower a), (Py.lower b). by rewrite !lower_app.
Qed.

Lemma string_app_assoc (p q r : string) :
  ((p ++ q) ++ r)%string = (p ++ (q ++ r))%string.
Proof.
  induction p as [|c p IH]; [done|].
  change (String c ((p ++ q) ++ r)%string = String c (p ++ (q ++ r))%string).
  by rewrite IH.
Qed.

Lemma contains_prefix (p q s : string) :
  Py.contains (p ++ q)%string s = true → Py.contains p s = true.
Proof.
  intros (a & b & ->)%contains_spec. apply contains_spec.
  exists a, (q ++ b)%string. by rewrite string_app_assoc.
Qed.

Lemma contains_empty (sub : string) :
  Py.contains sub "" = true → sub = "".
Proof. by destruct sub. Qed.

(** ** The skills read from a CV *)

Lemma scan_loop_spec (text : string) (l : list string) (acc : gset string)
    (x : string) :
  x ∈ foldl (λ acc skill, if Py.contains skill text then acc ∪ {[skill]} else acc)
        acc l
  ↔ x ∈ acc ∨ (x ∈ l ∧ Py.contains x text = true).
Proof.
  revert acc. induction l as [|skill l IH]; intros acc; simpl.
  - split; [by left | intros [?|[Hn ?]]; [done | by apply elem_of_nil in Hn]].
  - rewrite IH, elem_of_cons. destruct (Py.contains skill text) eqn:E.
    + rewrite elem_of_union, elem_of_singleton. split.
      * intros [[? | ->]|[? ?]]; eauto.
      * intros [?|[[->|?] ?]]; eauto.
    + split.
      * intros [?|[? ?]]; eauto.
      * intros [?|[[->|?] ?]]; eauto. congruence.
Qed.

Lemma scan_field_spec (field : option string) (acc : gset string) (x : string) :
  x ∈ scan_field field acc
  ↔ x ∈ acc
    ∨ ∃ text, field = Some text ∧ x ∈ tech_skills
              ∧ Py.contains x (Py.lower text) = true.
Proof.
  assert ("" ∉ tech_skills) as Hvocab by (apply (bool_decide_unpack _); by vm_compute).
  unfold scan_field. destruct field as [[|c s]|].
  - split; [by left|]. intros [?|(text & [= <-] & Hx & Hc)]; [done|].
    apply contains_empty in Hc. by subst.
  - rewrite scan_loop_spec. split.
    + intros [?|[? ?]]; [by left | right; eauto].
    + intros [?|(text & [= <-] & ? & ?)]; [by left | by right].
  - split; [by left|]. by intros [?|(text & [=] & _)].
Qed.

Lemma cv_skills_of_spec (cv : cv_row) (x : string) :
  x ∈ cv_skills_of cv
  ↔ x ∈ tech_skills
    ∧ ∃ text, (cv_certifications cv = Some text
               ∨ cv_work_experience cv = Some text
               ∨ cv_projects cv = Some text)
              ∧ Py.contains x (Py.lower text) = true.
Proof.
  unfold cv_skills_of. rewrite !scan_field_spec. split.
  - intros [[[He|(t & ? & ? & ?)]|(t & ? & ? & ?)]|(t & ? & ? & ?)];
      [by apply not_elem_of_empty in He | eauto 10..].
  - intros (Hx & t & [?|[?|?]] & ?); eauto 10.
Qed.

(** C10. In an ASCII text of the certifications, the work experience or
    the projects, a vocabulary term is in the skill set of the CV as
    soon as it occurs in the lower-cased text, anywhere, also inside
    another word.  So a text in which "javascript" occurs, in lower case
    or in any case, puts both "javascript" and "java" in the set. *)
Theorem cv_skills_by_substring (cv : cv_row) (text : string) :
  cv_certifications cv = Some text
  ∨ cv_work_experience cv = Some text
  ∨ cv_projects cv = Some text →
  Py.isascii text = true →
  (∀ skill before after,
     skill ∈ tech_skills →
     Py.lower text = (before ++ skill ++ after)%string →
     skill ∈ cv_skills_of cv)
  ∧ (∀ before after,
       text = (before ++ "javascript" ++ after)%string →
       "javascript" ∈ cv_skills_of cv ∧ "java" ∈ cv_skills_of cv)
  ∧ (∀ before after,
       Py.lower text = (before ++ "javascript" ++ after)%string →
       "javascript" ∈ cv_skills_of cv ∧ "java" ∈ cv_skills_of cv).
Proof.
  intros Hfield _.
  assert (∀ skill before after,
            skill ∈ tech_skills →
            Py.lower text = (before ++ skill ++ after)%string →
            skill ∈ cv_skills_of cv) as Hgen.
  { intros skill before after Hs Hocc. apply cv_skills_of_spec.
    split; [done|]. exists text. split; [done|].
    apply contains_spec. by exists before, after. }
  assert (∀ before after,
            Py.lower text = (before ++ "javascript" ++ after)%string →
            "javascript" ∈ cv_skills_of cv ∧ "java" ∈ cv_skills_of cv) as Hjs.
  { intros before after Hocc. split.
    - apply (Hgen "javascript" before after); [|done].
      apply (bool_decide_unpack _). by vm_compute.
    - apply (Hgen "java" before ("script" ++ after)%string).
      + apply (bool_decide_unpack _). by vm_compute.
      + by rewrite Hocc. }
  split; [done|]. split; [|done].
  intros before after ->.
  apply (Hjs (Py.lower before) (Py.lower after)).
  by rewrite !lower_app.
Qed.

Lemma cv_skills_by_substring_witness :
  "javascript" ∈ cv_skills_of
                   {| cv_user_id := 1; cv_certifications := None;
                      cv_work_experience := None;
                      cv_projects := Some "Built a tool with Python and javascript";
                      cv_education := None |}
  ∧ "java" ∈ cv_skills_of
                   {| cv_user_id := 1; cv_certifications := None;
                      cv_work_experience := None;
                      cv_projects := Some "Built a tool with Python and javascript";
                      cv_education := None |}
  ∧ "python" ∈ cv_skills_of
                   {| cv_user_id := 1; cv_certifications := None;
                      cv_work_experience := None;
                      cv_projects := Some "Built a tool with Python and javascript";
                      cv_education := None |}.
Proof.
  destruct (cv_skills_by_substring
              {| cv_user_id := 1; cv_certifications := None;
                 cv_work_experience := None;
                 cv_projects := Some "Built a tool with Python and javascript";
                 cv_education := None |}
              "Built a tool with Python and javascript")
    as (Hany & Hraw & _).
  - right. right. reflexivity.
  - reflexivity.
  - destruct (Hraw "Built a tool with Python and " "") as [Hjs Hjava].
    + reflexivity.
    + split; [exact Hjs|]. split; [exact Hjava|].
      apply (Hany "python" "built a tool with " " and javascript").
      * apply (bool_decide_unpack _). vm_compute. reflexivity.
      * reflexivity.
Defined.

Example skills_of_demo_cv :
  elements (cv_skills_of Demo.plain_cv) = ["sql"; "java"; "python"].
Proof. vm_compute. reflexivity. Qed.

(** ** Parsing of skill strings *)

Lemma is_space_lower_char (c : ascii) :
  Py.is_space (Py.lower_char c) = Py.is_space c.
Proof. destruct c as [[] [] [] [] [] [] [] []]; reflexivity. Qed.

Lemma lower_char_idemp (c : ascii) :
  Py.lower_char (Py.lower_char c) = Py.lower_char c.
Proof. destruct c as [[] [] [] [] [] [] [] []]; reflexivity. Qed.

Lemma lower_idemp (s : string) : Py.lower (Py.lower s) = Py.lower s.
Proof.
  induction s as [|c s IH]; simpl; [done|]. by rewrite lower_char_idemp, IH.
Qed.

Lemma lower_empty (s : string) : Py.lower s = "" ↔ s = "".
Proof. by destruct s. Qed.

Lemma lstrip_lower (s : string) : Py.lstrip (Py.lower s) = Py.lower (Py.lstrip s).
Proof.
  induction s as [|c s IH]; simpl; [done|].
  rewrite is_space_lower_char. by destruct (Py.is_space c).
Qed.

Lemma rstrip_lower (s : string) : Py.rstrip (Py.lower s) = Py.lower (Py.rstrip s).
Proof.
  induction s as [|c s IH]; simpl; [done|].
  rewrite IH, is_space_lower_char.
  destruct (Py.rstrip s); simpl; [by destruct (Py.is_space c) | done].
Qed.

Lemma strip_lower (s : string) : Py.strip (Py.lower s) = Py.lower (Py.strip s).
Proof. unfold Py.strip. by rewrite lstrip_lower, rstrip_lower. Qed.

Lemma lstrip_headed (s : string) : headed (Py.lstrip s).
Proof.
  induction s as [|c s IH]; simpl; [done|].
  destruct (Py.is_space c) eqn:E; [done | exact E].
Qed.

Lemma headed_lstrip (s : string) : headed s → Py.lstrip s = s.
Proof. destruct s as [|c s]; simpl; [done | by intros ->]. Qed.

Lemma rstrip_headed (s : string) : headed s → headed (Py.rstrip s).
Proof.
  destruct s as [|c s]; simpl; [done|]. intros Hc.
  destruct (Py.rstrip s); simpl; [by rewrite Hc | done].
Qed.

Lemma rstrip_idemp (s : string) : Py.rstrip (Py.rstrip s) = Py.rstrip s.
Proof.
  induction s as [|c s IH]; simpl; [done|].
  destruct (Py.rstrip s) as [|d t] eqn:E.
  - destruct (Py.is_space c) eqn:Hc; simpl; [done | by rewrite Hc].
  - change (Py.rstrip (String c (String d t))) with
      (match Py.rstrip (String d t) with
       | EmptyString => if Py.is_space c then EmptyString else String c EmptyString
       | t' => String c t'
       end).
    by rewrite IH.
Qed.

Lemma strip_idemp (s : string) : Py.strip (Py.strip s) = Py.strip s.
Proof.
  unfold Py.strip.
  rewrite (headed_lstrip (Py.rstrip (Py.lstrip s)))
    by apply rstrip_headed, lstrip_headed.
  apply rstrip_idemp.
Qed.

Lemma rstrip_empty (s : string) : Py.rstrip s = "" ↔ Py.all_space s = true.
Proof.
  unfold Py.all_space. induction s as [|c s IH]; simpl; [done|].
  rewrite andb_true_iff, <- IH.
  destruct (Py.rstrip s); destruct (Py.is_space c); split; try done; by intros [].
Qed.

Lemma all_space_lstrip (s : string) :
  Py.all_space (Py.lstrip s) = Py.all_space s.
Proof.
  unfold Py.all_space. induction s as [|c s IH]; simpl; [done|].
  destruct (Py.is_space c) eqn:E; simpl; [done | by rewrite E].
Qed.

Lemma strip_empty (s : string) : Py.strip s = "" ↔ Py.all_space s = true.
Proof. unfold Py.strip. by rewrite rstrip_empty, all_space_lstrip. Qed.

Lemma split_nonempty (sep : ascii) (s : string) : Py.split sep s ≠ [].
Proof.
  destruct s as [|c s]; simpl; [done|].
  destruct (Ascii.eqb c sep); [done|]. by destruct (Py.split sep s).
Qed.

Lemma elem_of_skill_set (s x : string) :
  x ∈ skill_set s
  ↔ ∃ skill, skill ∈ Py.split "," s ∧ x = Py.lower (Py.strip skill).
Proof.
  unfold skill_set. rewrite elem_of_list_to_set, list_elem_of_fmap.
  split; intros (skill & ? & ?); eauto.
Qed.

(** C2, as the code has it.  The parsed set of an ASCII skill string
    holds, for each comma-separated piece, the piece trimmed and
    lower-cased; every token is trimmed and in lower case.  Empty and
    all-white-space pieces are not dropped: the set holds the empty
    token exactly when there is such a piece, and it is never the empty
    set.  Only a missing or empty required-skill string gives a posting
    no tags. *)
Theorem skill_set_tokens (s : string) :
  Py.isascii s = true →
  (∀ x, x ∈ skill_set s
        ↔ ∃ skill, skill ∈ Py.split "," s ∧ x = Py.lower (Py.strip skill))
  ∧ (∀ x, x ∈ skill_set s → Py.strip x = x ∧ Py.lower x = x)
  ∧ ("" ∈ skill_set s
     ↔ ∃ skill, skill ∈ Py.split "," s ∧ Py.all_space skill = true)
  ∧ skill_set s ≠ ∅
  ∧ ∀ internship,
      (∀ t, internship_required_skills internship = Some t →
            Py.isascii t = true) →
      (required_skills_of internship = ∅
       ↔ Py.truthy (internship_required_skills internship) = false).
Proof.
  intros _.
  split; [apply elem_of_skill_set|]. split; [|split; [|split]].
  - intros x (skill & _ & ->)%elem_of_skill_set.
    by rewrite strip_lower, strip_idemp, lower_idemp.
  - rewrite elem_of_skill_set. split.
    + intros (skill & Hin & Hempty). exists skill. split; [done|].
      symmetry in Hempty. by apply lower_empty, strip_empty in Hempty.
    + intros (skill & Hin & Hsp). exists skill. split; [done|].
      apply strip_empty in Hsp. by rewrite Hsp.
  - pose proof (split_nonempty "," s) as Hne.
    destruct (Py.split "," s) as [|skill l] eqn:E; [done|].
    intros Hempty.
    assert (Py.lower (Py.strip skill) ∈ skill_set s) as Hin.
    { apply elem_of_skill_set. exists skill. rewrite E. split; [left | done]. }
    rewrite Hempty in Hin. by apply not_elem_of_empty in Hin.
  - intros internship _. unfold required_skills_of.
    destruct (internship_required_skills internship) as [[|c t]|]; simpl;
      [done | | done].
    split; [|done]. intros Hempty.
    pose proof (split_nonempty "," (String c t)) as Hne.
    destruct (Py.split "," (String c t)) as [|skill l] eqn:E; [done|].
    assert (Py.lower (Py.strip skill) ∈ skill_set (String c t)) as Hin.
    { apply elem_of_skill_set. exists skill. rewrite E. split; [left | done]. }
    rewrite Hempty in Hin. by apply not_elem_of_empty in Hin.
Qed.

Lemma skill_set_tokens_witness :
  (∀ x, x ∈ skill_set "Python, ,SQL"
        ↔ ∃ skill, skill ∈ Py.split "," "Python, ,SQL"
                   ∧ x = Py.lower (Py.strip skill))
  ∧ (∀ x, x ∈ skill_set "Python, ,SQL" → Py.strip x = x ∧ Py.lower x = x)
  ∧ ("" ∈ skill_set "Python, ,SQL"
     ↔ ∃ skill, skill ∈ Py.split "," "Python, ,SQL"
                ∧ Py.all_space skill = true)
  ∧ skill_set "Python, ,SQL" ≠ ∅
  ∧ ∀ internship,
      (∀ t, internship_required_skills internship = Some t →
            Py.isascii t = true) →
      (required_skills_of internship = ∅
       ↔ Py.truthy (internship_required_skills internship) = false).
Proof.
  apply (skill_set_tokens "Python, ,SQL").
  reflexivity.
Defined.

Example skill_set_of_spaced_tags :
  elements (skill_set "Python, ,SQL") = ["sql"; "python"; ""].
Proof. vm_compute. reflexivity. Qed.

(** The claim of C2 that the parsed set never holds the empty token
    fails on an ASCII string with a blank piece. *)
Lemma skill_set_keeps_empty_token :
  Py.isascii "python, ,sql" = true
  ∧ "" ∈ skill_set "python, ,sql"
  ∧ ¬ (∀ s : string, Py.isascii s = true → "" ∉ skill_set s).
Proof.
  assert ("" ∈ skill_set "python, ,sql") as H
    by (apply (bool_decide_unpack _); by vm_compute).
  split; [reflexivity|]. split; [exact H|].
  intros Hall. exact (Hall "python, ,sql" eq_refl H).
Qed.

Example skill_set_of_blank :
  elements (skill_set " ") = [""].
Proof. vm_compute. reflexivity. Qed.

(** The empty token takes part in the comparison: a seeker whose skill
    string is one space matches a posting whose required skills are one
    comma. *)
Example blank_seeker_matches_blank_posting :
  option_map (map (λ r, (rec_id r, rec_similarity r)))
    (match content_based_recommendations
             {| profiles := [ {| profile_user_id := 7; profile_skills := Some " " |} ];
                internships := [ Demo.posting 30 "Blank" None (Some ",") ];
                users := []; cvs := []; applications := [] |} 7 with
     | Ok l => Some l
     | Raise _ => None
     end) = Some [(30%Z, 1%float)].
Proof. vm_compute. reflexivity. Qed.

(** * Further properties of the engine *)

(** ** Comparison of scores *)

Lemma SFcompare_Lt_Gt (f1 f2 : spec_float) :
  SFcompare f1 f2 = Some Lt → SFcompare f2 f1 = Some Gt.
Proof.
  destruct f1 as [s1|s1| |s1 m1 e1], f2 as [s2|s2| |s2 m2 e2]; simpl;
    try destruct s1; try destruct s2; try done.
  - rewrite (Z.compare_antisym e1 e2). destruct (e1 ?= e2)%Z; simpl; try done.
    pose proof (Pos.compare_cont_antisym m1 m2 Eq) as H. simpl in H.
    rewrite <- H. by destruct (Pos.compare_cont Eq m1 m2).
  - rewrite (Z.compare_antisym e1 e2). destruct (e1 ?= e2)%Z; simpl; try done.
    pose proof (Pos.compare_cont_antisym m1 m2 Eq) as H. simpl in H.
    rewrite <- H. by destruct (Pos.compare_cont Eq m1 m2).
Qed.

Lemma py_gt_asym (a b : float) : py_gt a b = true → py_gt b a = false.
Proof.
  unfold py_gt. rewrite !FloatAxioms.ltb_spec. unfold SFltb.
  destruct (SFcompare (Prim2SF b) (Prim2SF a)) as [[]|] eqn:E; try done.
  intros _. apply SFcompare_Lt_Gt in E. by rewrite E.
Qed.

Lemma py_gt_irrefl (a : float) : py_gt a a = false.
Proof.
  destruct (py_gt a a) eqn:E; [|done].
  pose proof (py_gt_asym a a E). congruence.
Qed.

(** ** Ranking *)

Lemma descending_cons {A : Type} (key : A → float) (x : A) (l : list A) :
  descending key (x :: l)
  ↔ (match l with y :: _ => py_gt (key y) (key x) = false | [] => True end)
    ∧ descending key l.
Proof. destruct l; simpl; tauto. Qed.

Lemma insert_desc_head {A : Type} (key : A → float) (x y : A) (l : list A) :
  py_gt (key y) (key x) = true →
  match l with z :: _ => py_gt (key z) (key y) = false | [] => True end →
  match insert_desc key x l with
  | z :: _ => py_gt (key z) (key y) = false
  | [] => True
  end.
Proof.
  intros Hyx Hl. destruct l as [|z l]; simpl.
  - by apply py_gt_asym.
  - destruct (py_gt (key z) (key x)); [done | by apply py_gt_asym].
Qed.

Lemma insert_desc_descending {A : Type} (key : A → float) (x : A) (l : list A) :
  descending key l → descending key (insert_desc key x l).
Proof.
  induction l as [|y l IH]; intros Hl; [done|].
  cbn [insert_desc]. destruct (py_gt (key y) (key x)) eqn:E.
  - apply descending_cons in Hl as [Hhd Hl].
    apply descending_cons. split; [by apply insert_desc_head | by apply IH].
  - apply descending_cons. by split.
Qed.

Lemma sort_desc_descending {A : Type} (key : A → float) (l : list A) :
  descending key (sort_desc key l).
Proof.
  induction l as [|x l IH]; [done|]. by apply insert_desc_descending.
Qed.

Lemma descending_take {A : Type} (key : A → float) (n : nat) (l : list A) :
  descending key l → descending key (take n l).
Proof.
  revert n. induction l as [|x l IH]; intros [|n] Hl; try done.
  apply descending_cons in Hl as [Hhd Hl].
  change (take (S n) (x :: l)) with (x :: take n l).
  apply descending_cons. split; [|by apply IH].
  destruct l as [|y l]; [by destruct n|]. by destruct n.
Qed.

(** X1. The Content-based scorer and the CV-based scorer return their
    records ranked: no record is followed by one of strictly greater
    similarity. *)
Theorem tag_scorers_rank_descending (db : database) (user_id : Z) :
  (∃ l, content_based_recommendations db user_id = Ok l
        ∧ descending rec_similarity l)
  ∧ (∃ l, cv_based_recommendations db user_id = Ok l
          ∧ descending rec_similarity l).
Proof.
  split.
  - unfold content_based_recommendations.
    destruct (find _ _) as [profile|]; [|by exists []].
    destruct (profile_skills profile) as [[|c s]|]; try by exists [].
    destruct (collect_spec (content_score db (skill_set (String c s)))
                (internships db)) as (rs & -> & _).
    { intros x _. apply content_score_ok. }
    simpl. eexists. split; [done|].
    apply descending_take, sort_desc_descending.
  - unfold cv_based_recommendations.
    destruct (find _ _) as [cv|]; [|by exists []].
    destruct (cv_candidates_spec db cv) as (rs & -> & _).
    simpl. eexists. split; [done|].
    apply descending_take, sort_desc_descending.
Qed.

(** ** What the combiner returns *)

Lemma dict_keys_set_new {V : Type} (k : Z) (v : V) (d : dict V) :
  k ∉ dict_keys d → dict_keys (dict_set k v d) = dict_keys d ++ [k].
Proof.
  unfold dict_keys. induction d as [|[k' v'] d IH]; simpl; [done|].
  intros [Hne Hk]%not_elem_of_cons.
  destruct (k =? k')%Z eqn:E; [apply Z.eqb_eq in E; congruence|].
  simpl. by rewrite IH.
Qed.

Lemma dict_keys_set_old {V : Type} (k : Z) (v : V) (d : dict V) :
  k ∈ dict_keys d → dict_keys (dict_set k v d) = dict_keys d.
Proof.
  unfold dict_keys. induction d as [|[k' v'] d IH]; simpl.
  - by intros ?%elem_of_nil.
  - destruct (k =? k')%Z eqn:E.
    + apply Z.eqb_eq in E. by subst.
    + apply Z.eqb_neq in E. intros [?|Hk]%elem_of_cons; [done|].
      simpl. by rewrite IH.
Qed.

Lemma dict_keys_set_prefix {V : Type} (k : Z) (v : V) (d : dict V) :
  dict_keys d `prefix_of` dict_keys (dict_set k v d).
Proof.
  destruct (decide (k ∈ dict_keys d)).
  - by rewrite dict_keys_set_old.
  - rewrite dict_keys_set_new by done. by apply prefix_app_r.
Qed.

Lemma keyed_ids (d : dict recommendation) :
  keyed d → map rec_id (dict_values d) = dict_keys d.
Proof.
  intros [_ Hk]. unfold dict_values, dict_keys.
  induction d as [|[k r] d IH]; simpl; [done|].
  rewrite (Hk k r) by left. f_equal. apply IH.
  intros k' r' H. apply Hk. by right.
Qed.

(** The three passes of the combiner, as one step function each. *)
Lemma merge_cv_cases (d : dict recommendation) (r : recommendation) :
  merge_cv d r = d ∧ rec_id r ∈ dict_keys d
  ∨ merge_cv d r = dict_set (rec_id r) r d.
Proof.
  unfold merge_cv. destruct (dict_get (rec_id r) d) eqn:E; [|by right].
  destruct (py_gt _ _); [by right|]. left. split; [done|].
  destruct (decide (rec_id r ∈ dict_keys d)) as [|Hn]; [done|].
  apply dict_get_None_keys in Hn. congruence.
Qed.

Lemma merge_collab_cases (d : dict recommendation) (r : recommendation) :
  merge_collab d r = d ∧ rec_id r ∈ dict_keys d
  ∨ merge_collab d r = dict_set (rec_id r) r d.
Proof.
  unfold merge_collab. destruct (dict_get (rec_id r) d) eqn:E; [|by right].
  left. split; [done|].
  destruct (decide (rec_id r ∈ dict_keys d)) as [|Hn]; [done|].
  apply dict_get_None_keys in Hn. congruence.
Qed.

Lemma pass_sources (f : dict recommendation → recommendation → dict recommendation)
    (l : list recommendation) (d : dict recommendation) (k : Z)
    (v : recommendation) :
  files_records f → (k, v) ∈ foldl f d l → (k, v) ∈ d ∨ v ∈ l.
Proof.
  intros Hf. revert d. induction l as [|x l IH]; simpl; intros d H; [by left|].
  apply IH in H as [H|H]; [|right; by right].
  destruct (Hf d x) as [[E _]|E]; rewrite E in H; [by left|].
  apply dict_set_elem in H as [[= -> ->]|H]; [right; left | by left].
Qed.

Lemma pass_keys_grow (f : dict recommendation → recommendation → dict recommendation)
    (l : list recommendation) (d : dict recommendation) :
  files_records f → dict_keys d `prefix_of` dict_keys (foldl f d l).
Proof.
  intros Hf. revert d. induction l as [|x l IH]; simpl; intros d; [done|].
  etrans; [|apply IH].
  destruct (Hf d x) as [[-> _]| ->]; [done | apply dict_keys_set_prefix].
Qed.

Lemma pass_keys_cover (f : dict recommendation → recommendation → dict recommendation)
    (l : list recommendation) (d : dict recommendation) (r : recommendation) :
  files_records f → r ∈ l → rec_id r ∈ dict_keys (foldl f d l).
Proof.
  intros Hf. revert d. induction l as [|x l IH]; simpl; intros d Hr.
  - by apply elem_of_nil in Hr.
  - apply elem_of_cons in Hr as [->|Hr]; [|by apply IH].
    assert (rec_id x ∈ dict_keys (f d x)) as Hx.
    { destruct (Hf d x) as [[-> ?]| ->]; [done|]. apply dict_keys_set. by left. }
    destruct (pass_keys_grow f l (f d x) Hf) as [k ->].
    apply elem_of_app. by left.
Qed.

Lemma content_pass_files :
  files_records (λ all_recs rec, dict_set (rec_id rec) rec all_recs).
Proof. intros d r. by right. Qed.

Lemma content_pass_keys (l : list recommendation) (d : dict recommendation) :
  NoDup (dict_keys d ++ map rec_id l) →
  dict_keys (foldl (λ all_recs rec, dict_set (rec_id rec) rec all_recs) d l)
  = dict_keys d ++ map rec_id l.
Proof.
  revert d. induction l as [|x l IH]; simpl; intros d Hnd.
  - by rewrite app_nil_r.
  - assert (rec_id x ∉ dict_keys d) as Hx.
    { apply NoDup_app in Hnd as (_ & Hdis & _). intros Hin.
      apply (Hdis _ Hin). left. }
    rewrite IH; rewrite dict_keys_set_new by done.
    + by rewrite <- app_assoc.
    + by rewrite <- app_assoc.
Qed.

Lemma combine_sources (content_recs cv_recs collab_recs : list recommendation)
    (r : recommendation) :
  r ∈ combine content_recs cv_recs collab_recs →
  r ∈ content_recs ∨ r ∈ cv_recs ∨ r ∈ collab_recs.
Proof.
  unfold combine, dict_values. intros ([k v] & -> & Hin)%list_elem_of_fmap. simpl.
  destruct (pass_sources merge_collab _ _ _ _ merge_collab_cases Hin)
    as [Hcv|?]; [|tauto].
  destruct (pass_sources merge_cv _ _ _ _ merge_cv_cases Hcv)
    as [Hcontent|?]; [|tauto].
  destruct (pass_sources _ _ _ _ _ content_pass_files Hcontent)
    as [Hnil|?]; [|tauto].
  by apply elem_of_nil in Hnil.
Qed.

Lemma combine_ids (content_recs cv_recs collab_recs : list recommendation) :
  map rec_id (combine content_recs cv_recs collab_recs)
  = dict_keys (all_recs_collab content_recs cv_recs collab_recs).
Proof. apply keyed_ids, all_recs_collab_keyed. Qed.

Lemma combine_covers (content_recs cv_recs collab_recs : list recommendation)
    (r : recommendation) :
  r ∈ content_recs ∨ r ∈ cv_recs ∨ r ∈ collab_recs →
  rec_id r ∈ map rec_id (combine content_recs cv_recs collab_recs).
Proof.
  rewrite combine_ids. unfold all_recs_collab, all_recs_cv, content_dict.
  set (d1 := foldl (λ all_recs rec, dict_set (rec_id rec) rec all_recs) []
               content_recs).
  set (d2 := foldl merge_cv d1 cv_recs).
  destruct (pass_keys_grow merge_cv cv_recs d1 merge_cv_cases) as [k1 Hk1].
  destruct (pass_keys_grow merge_collab collab_recs d2 merge_collab_cases)
    as [k2 Hk2].
  fold d2 in Hk1. intros [H|[H|H]].
  - pose proof (pass_keys_cover _ content_recs [] r content_pass_files H) as Hr.
    fold d1 in Hr. rewrite Hk2, Hk1. apply elem_of_app. left.
    apply elem_of_app. by left.
  - pose proof (pass_keys_cover merge_cv cv_recs d1 r merge_cv_cases H) as Hr.
    fold d2 in Hr. rewrite Hk2. apply elem_of_app. by left.
  - exact (pass_keys_cover merge_collab collab_recs d2 r merge_collab_cases H).
Qed.

Lemma combine_NoDup (content_recs cv_recs collab_recs : list recommendation) :
  NoDup (map rec_id (combine content_recs cv_recs collab_recs)).
Proof. rewrite combine_ids. apply all_recs_collab_keyed. Qed.

Lemma combine_content_first
    (content_recs cv_recs collab_recs : list recommendation) :
  NoDup (map rec_id content_recs) →
  map rec_id content_recs
    `prefix_of` map rec_id (combine content_recs cv_recs collab_recs).
Proof.
  intros Hnd. rewrite combine_ids. unfold all_recs_collab, all_recs_cv.
  etrans; [|exact (pass_keys_grow merge_collab _ _ merge_collab_cases)].
  etrans; [|exact (pass_keys_grow merge_cv _ _ merge_cv_cases)].
  unfold content_dict. by rewrite content_pass_keys.
Qed.

(** ** The user-item matrix *)

Lemma apps_of_set (k k' : Z) (X : gset Z) (d : dict (gset Z)) :
  apps_of (dict_set k X d) k' = if decide (k' = k) then X else apps_of d k'.
Proof.
  unfold apps_of. destruct (decide (k' = k)) as [->|Hne].
  - by rewrite dict_get_set_eq.
  - by rewrite dict_get_set_ne.
Qed.

Lemma add_application_apps (d : dict (gset Z)) (a : application_row) (s : Z) :
  apps_of (add_application d a) s
  = if decide (s = app_student_id a)
    then apps_of d s ∪ {[app_internship_id a]}
    else apps_of d s.
Proof.
  unfold add_application. rewrite apps_of_set.
  destruct (decide (s = app_student_id a)) as [->|Hne].
  - destruct (dict_get (app_student_id a) d) eqn:E; [done|].
    rewrite dict_get_set_eq. unfold apps_of. by rewrite E.
  - destruct (dict_get (app_student_id a) d); [done|].
    by rewrite apps_of_set, decide_False.
Qed.

Lemma user_items_apps (l : list application_row) (d : dict (gset Z)) (s iid : Z) :
  iid ∈ apps_of (foldl add_application d l) s
  ↔ iid ∈ apps_of d s
    ∨ ∃ a, a ∈ l ∧ app_student_id a = s ∧ app_internship_id a = iid.
Proof.
  revert d. induction l as [|a l IH]; simpl; intros d.
  - split; [by left|]. intros [?|(a & Ha & _)]; [done|]. by apply elem_of_nil in Ha.
  - rewrite IH, add_application_apps. split.
    + intros [H|(a' & Ha' & ? & ?)].
      * destruct (decide (s = app_student_id a)) as [->|]; [|by left].
        apply elem_of_union in H as [H|H%elem_of_singleton]; [by left|].
        right. exists a. split; [left | done].
      * right. exists a'. split; [by right | done].
    + intros [H|(a' & Ha' & Hs & Hi)].
      * left. destruct (decide _); [|done]. apply elem_of_union. by left.
      * apply elem_of_cons in Ha' as [->|Ha'].
        -- left. rewrite decide_True by done. apply elem_of_union. right.
           by apply elem_of_singleton.
        -- right. exists a'. done.
Qed.

Lemma user_items_of_apps (all_applications : list application_row) (s iid : Z) :
  iid ∈ apps_of (user_items_of all_applications) s
  ↔ ∃ a, a ∈ all_applications ∧ app_student_id a = s ∧ app_internship_id a = iid.
Proof.
  unfold user_items_of. rewrite user_items_apps. split; [|by right].
  intros [H|H]; [|done]. unfold apps_of in H. simpl in H.
  by apply not_elem_of_empty in H.
Qed.

Lemma add_application_NoDup (d : dict (gset Z)) (a : application_row) :
  NoDup (dict_keys d) → NoDup (dict_keys (add_application d a)).
Proof.
  intros Hd. unfold add_application. apply dict_set_NoDup.
  destruct (dict_get _ d); [done | by apply dict_set_NoDup].
Qed.

Lemma user_items_NoDup (all_applications : list application_row) :
  NoDup (dict_keys (user_items_of all_applications)).
Proof.
  unfold user_items_of.
  assert (∀ l d, NoDup (dict_keys d) →
                 NoDup (dict_keys (foldl add_application d l))) as H.
  { induction l as [|a l IH]; simpl; intros d Hd; [done|].
    by apply IH, add_application_NoDup. }
  apply H. constructor.
Qed.

(** ** Students similar to the seeker *)

Lemma positive_quotient (n : nat) (union : Z) (q : float) :
  jaccard_quotient (Z.of_nat n) union = Ok q → py_gt q 0 = true → n ≠ 0.
Proof.
  intros Hq Hpos ->. change (Z.of_nat 0) with 0%Z in Hq.
  destruct (zero_quotient union) as (q' & Hq' & _ & Hneg).
  rewrite Hq in Hq'. injection Hq' as ->. congruence.
Qed.

Lemma similar_students_of_shared (user_id : Z) (current_user_apps : gset Z)
    (items : list (Z * gset Z)) (l : list (Z * float)) :
  similar_students_of user_id current_user_apps items = Ok l →
  ∀ student_id similarity, (student_id, similarity) ∈ l →
    student_id ≠ user_id
    ∧ py_gt similarity 0 = true
    ∧ ∃ apps shared, (student_id, apps) ∈ items
                     ∧ shared ∈ current_user_apps ∧ shared ∈ apps.
Proof.
  revert l. induction items as [|[s apps] items IH]; simpl; intros l.
  - intros [= <-] ? ? H. by apply elem_of_nil in H.
  - destruct (s =? user_id)%Z eqn:E.
    + intros Hl s' q' Hin. destruct (IH l Hl s' q' Hin) as (? & ? & X & sh & ? & ?).
      split; [done|]. split; [done|]. exists X, sh. split; [by right | done].
    + apply Z.eqb_neq in E.
      destruct (jaccard_quotient _ _) as [q|] eqn:Hq; simpl; [|done].
      destruct (similar_students_of user_id current_user_apps items)
        as [rest|]; simpl; [|done].
      intros [= <-] s' q' Hin.
      assert (∀ s' q', (s', q') ∈ rest →
                s' ≠ user_id ∧ py_gt q' 0 = true
                ∧ ∃ apps' shared, (s', apps') ∈ (s, apps) :: items
                                  ∧ shared ∈ current_user_apps ∧ shared ∈ apps')
        as Hrest.
      { intros s0 q0 H0. destruct (IH rest eq_refl s0 q0 H0) as (? & ? & X & sh & ? & ?).
        split; [done|]. split; [done|]. exists X, sh. split; [by right | done]. }
      destruct (py_gt q 0) eqn:Hpos; [|by apply Hrest].
      apply elem_of_cons in Hin as [[= -> ->]|Hin]; [|by apply Hrest].
      split; [done|]. split; [done|].
      pose proof (positive_quotient _ _ _ Hq Hpos) as Hn.
      apply size_non_empty_iff in Hn.
      apply set_choose in Hn as [shared [? ?]%elem_of_intersection].
      exists apps, shared. split; [left | done].
Qed.

(** ** The inner loop of the collaborative scorer *)

Lemma find_internship (iid : Z) (l : list internship_row) (i : internship_row) :
  find (λ i, (internship_id i =? iid)%Z) l = Some i →
  i ∈ l ∧ internship_id i = iid.
Proof.
  intros [Hin Heq]%find_some. split; [by apply list_elem_of_In|].
  by apply Z.eqb_eq in Heq.
Qed.

Lemma visit_inv_step (db : database) (similarity : float) (seen0 : gset Z)
    (Q : recommendation → Prop) (st : list recommendation * gset Z) (iid : Z) :
  (∀ i, i ∈ internships db → internship_id i = iid →
        Q (collab_rec db i similarity)) →
  visit_inv seen0 Q st → visit_inv seen0 Q (visit db similarity st iid).
Proof.
  intros HQ Hinv. destruct st as [recs seen]. unfold visit.
  destruct (decide (iid ∈ seen)) as [|Hnew]; [done|].
  destruct (find _ _) as [i|] eqn:Hfind; [|done].
  apply find_internship in Hfind as [Hi Hid].
  destruct Hinv as (Hsub & Hnd & Hrecs). simpl in Hsub, Hnd, Hrecs.
  assert (iid ∉ seen0) as Hfresh by (intros H0; by apply Hnew, Hsub).
  split; [|split]; simpl.
  - intros x Hx. apply elem_of_union. left. by apply Hsub.
  - rewrite map_app. apply NoDup_app. split; [done|]. split.
    + intros k (r & -> & Hr)%list_elem_of_fmap Hk.
      apply list_elem_of_singleton in Hk. simpl in Hk.
      destruct (Hrecs r Hr) as (Hseen & _). congruence.
    + apply NoDup_singleton.
  - intros r [Hr|Hr%list_elem_of_singleton]%elem_of_app.
    + destruct (Hrecs r Hr) as (? & ? & ?).
      split; [apply elem_of_union; by left | done].
    + subst r. simpl. rewrite Hid.
      split; [apply elem_of_union; right; by apply elem_of_singleton|].
      split; [done | by apply HQ].
Qed.

Lemma visit_inv_fold (db : database) (similarity : float) (seen0 : gset Z)
    (Q : recommendation → Prop) (its : list Z)
    (st : list recommendation * gset Z) :
  (∀ iid i, iid ∈ its → i ∈ internships db → internship_id i = iid →
            Q (collab_rec db i similarity)) →
  visit_inv seen0 Q st →
  visit_inv seen0 Q (foldl (visit db similarity) st its).
Proof.
  revert st. induction its as [|iid its IH]; simpl; intros st HQ Hinv; [done|].
  apply IH.
  - intros iid' i Hin. apply HQ. by right.
  - apply visit_inv_step; [|done]. intros i. apply HQ. left.
Qed.

Section CollaborativeRecords.

Variable set_iter : gset Z → list Z.

Lemma visit_students_inv (db : database) (user_items : dict (gset Z))
    (seen0 : gset Z) (Q : recommendation → Prop) (students : list (Z * float))
    (st st' : list recommendation * gset Z) :
  (∀ student_id similarity apps iid i,
     (student_id, similarity) ∈ students →
     dict_get student_id user_items = Some apps →
     iid ∈ set_iter apps → i ∈ internships db → internship_id i = iid →
     Q (collab_rec db i similarity)) →
  visit_inv seen0 Q st →
  visit_students set_iter db user_items students st = Ok st' →
  visit_inv seen0 Q st'.
Proof.
  revert st. induction students as [|[s q] students IH]; simpl; intros st HQ Hinv.
  - by intros [= <-].
  - destruct (dict_get s user_items) as [apps|] eqn:Hget; [|done].
    apply IH.
    + intros s' q' apps' iid i Hin. apply HQ. by right.
    + apply visit_inv_fold; [|done]. intros iid i Hiid.
      by apply (HQ s q apps iid i); [left|..].
Qed.

(** Where a record of the collaborative scorer comes from. *)
Lemma collaborative_filtering_records (db : database) (user_id : Z) :
  ∃ l, collaborative_filtering set_iter db user_id = Ok l
       ∧ NoDup (map rec_id l)
       ∧ ∀ r, r ∈ l →
           (rec_id r ∉ apps_of (user_items_of (applications db)) user_id)
           ∧ ∃ internship peer apps shared,
               internship ∈ internships db
               ∧ r = collab_rec db internship (rec_similarity r)
               ∧ py_gt (rec_similarity r) 0 = true
               ∧ peer ≠ user_id
               ∧ dict_get peer (user_items_of (applications db)) = Some apps
               ∧ rec_id r ∈ set_iter apps
               ∧ shared ∈ apps_of (user_items_of (applications db)) user_id
               ∧ shared ∈ apps.
Proof.
  unfold collaborative_filtering.
  set (user_items := user_items_of (applications db)).
  fold (apps_of user_items user_id).
  set (current := apps_of user_items user_id).
  destruct (similar_students_of_spec user_id current user_items)
    as (similar & Hsim & Hkeys).
  pose proof (similar_students_of_shared _ _ _ _ Hsim) as Hshared.
  rewrite Hsim. simpl.
  destruct (visit_students_ok set_iter db user_items
              (take 3 (sort_desc snd similar)) ([], current)) as [st' Hst'].
  { intros s q Hs%elem_of_top. by apply Hkeys in Hs as (? & _). }
  rewrite Hst'. simpl.
  set (Q := λ r : recommendation,
         ∃ internship peer apps shared,
           internship ∈ internships db
           ∧ r = collab_rec db internship (rec_similarity r)
           ∧ py_gt (rec_similarity r) 0 = true
           ∧ peer ≠ user_id
           ∧ dict_get peer user_items = Some apps
           ∧ rec_id r ∈ set_iter apps
           ∧ shared ∈ current ∧ shared ∈ apps).
  assert (visit_inv current Q st') as (_ & Hnd & Hrecs).
  { eapply visit_students_inv; [| |exact Hst'].
    - intros s q apps iid i Hs%elem_of_top Hget Hiid Hi Hid.
      destruct (Hshared s q Hs) as (Hne & Hpos & apps' & shared & Hin & Hc & Ha).
      assert (dict_get s user_items = Some apps') as Hget'
        by (apply dict_get_elem_NoDup; [apply user_items_NoDup | done]).
      rewrite Hget in Hget'. injection Hget' as <-.
      exists i, s, apps, shared. simpl. rewrite Hid. done.
    - split; [done|]. split; [constructor|]. by intros r ?%elem_of_nil. }
  eexists. split; [done|]. split.
  - eapply sublist_NoDup; [exact Hnd|].
    apply (fmap_sublist rec_id), sublist_take.
  - intros r Hr%elem_of_take_inv. destruct (Hrecs r Hr) as (_ & Hnot & HQ).
    split; [done | exact HQ].
Qed.

End CollaborativeRecords.

(** ** Records of the collaborative scorer *)

(** X2. The collaborative scorer never returns a posting the seeker has
    applied to. *)
Theorem collaborative_skips_applied_postings
    (set_iter : gset Z → list Z) (db : database) (user_id : Z) :
  ∃ l, collaborative_filtering set_iter db user_id = Ok l
       ∧ ∀ r a, r ∈ l → a ∈ applications db →
                app_student_id a = user_id → app_internship_id a ≠ rec_id r.
Proof.
  destruct (collaborative_filtering_records set_iter db user_id)
    as (l & Hl & _ & Hrecs).
  exists l. split; [done|]. intros r a Hr Ha Hs Hi.
  destruct (Hrecs r Hr) as (Hnot & _). apply Hnot.
  apply user_items_of_apps. by exists a.
Qed.

(** X3. The collaborative scorer returns a posting id at most once, even
    when several similar students applied to the posting. *)
Theorem collaborative_ids_unique
    (set_iter : gset Z → list Z) (db : database) (user_id : Z) :
  ∃ l, collaborative_filtering set_iter db user_id = Ok l
       ∧ NoDup (map rec_id l).
Proof.
  destruct (collaborative_filtering_records set_iter db user_id)
    as (l & Hl & Hnd & _).
  by exists l.
Qed.

(** X4. Every record of the collaborative scorer shows a posting of the
    catalogue (an application to a posting that is not in the catalogue
    gives no record), has type Collaborative, no sub-scores, and a
    similarity that passes [similarity > 0]. *)
Theorem collaborative_records_from_catalogue
    (set_iter : gset Z → list Z) (db : database) (user_id : Z) :
  ∃ l, collaborative_filtering set_iter db user_id = Ok l
       ∧ ∀ r, r ∈ l →
           ∃ internship, internship ∈ internships db
             ∧ shows db internship r
             ∧ rec_type r = "Collaborative"
             ∧ rec_skill_match r = None
             ∧ rec_education_bonus r = None
             ∧ rec_experience_bonus r = None
             ∧ py_gt (rec_similarity r) 0 = true.
Proof.
  destruct (collaborative_filtering_records set_iter db user_id)
    as (l & Hl & _ & Hrecs).
  exists l. split; [done|]. intros r Hr.
  destruct (Hrecs r Hr) as (_ & i & _ & _ & _ & Hi & Hrec & Hpos & _).
  exists i. split; [done|]. rewrite Hrec. by repeat split.
Qed.

(** X5. Every posting the collaborative scorer returns was applied to by
    another student who shares at least one application with the
    seeker. *)
Theorem collaborative_records_from_peers
    (set_iter : gset Z → list Z) (db : database) (user_id : Z) :
  (∀ X : gset Z, set_iter X ≡ₚ elements X) →
  ∃ l, collaborative_filtering set_iter db user_id = Ok l
       ∧ ∀ r, r ∈ l →
           ∃ peer shared a_peer a_shared a_own,
             peer ≠ user_id
             ∧ a_peer ∈ applications db
             ∧ app_student_id a_peer = peer
             ∧ app_internship_id a_peer = rec_id r
             ∧ a_shared ∈ applications db
             ∧ app_student_id a_shared = peer
             ∧ app_internship_id a_shared = shared
             ∧ a_own ∈ applications db
             ∧ app_student_id a_own = user_id
             ∧ app_internship_id a_own = shared.
Proof.
  intros Hperm.
  destruct (collaborative_filtering_records set_iter db user_id)
    as (l & Hl & _ & Hrecs).
  exists l. split; [done|]. intros r Hr.
  destruct (Hrecs r Hr)
    as (_ & i & peer & apps & shared & _ & _ & _ & Hne & Hget & Hiter & Hown & Hsh).
  assert (apps_of (user_items_of (applications db)) peer = apps) as Happs
    by (unfold apps_of; by rewrite Hget).
  rewrite (Hperm apps) in Hiter. apply elem_of_elements in Hiter.
  rewrite <- Happs in Hiter, Hsh.
  apply user_items_of_apps in Hiter as (a1 & ? & ? & ?).
  apply user_items_of_apps in Hsh as (a2 & ? & ? & ?).
  apply user_items_of_apps in Hown as (a3 & ? & ? & ?).
  exists peer, shared, a1, a2, a3. done.
Qed.

Lemma collaborative_records_from_peers_witness :
  ∃ l, collaborative_filtering elements Demo.db 1 = Ok l
       ∧ ∀ r, r ∈ l →
           ∃ peer shared a_peer a_shared a_own,
             peer ≠ 1%Z
             ∧ a_peer ∈ applications Demo.db
             ∧ app_student_id a_peer = peer
             ∧ app_internship_id a_peer = rec_id r
             ∧ a_shared ∈ applications Demo.db
             ∧ app_student_id a_shared = peer
             ∧ app_internship_id a_shared = shared
             ∧ a_own ∈ applications Demo.db
             ∧ app_student_id a_own = 1%Z
             ∧ app_internship_id a_own = shared.
Proof.
  apply (collaborative_records_from_peers elements Demo.db 1).
  intros X. reflexivity.
Defined.

(** ** Records of the two tag-based scorers *)

Lemma null_score_below_threshold (q : float) :
  (∃ s, Prim2SF q = S754_zero s) ∨ Prim2SF q = S754_nan →
  py_gt q 0.2 = false.
Proof.
  unfold py_gt. rewrite FloatAxioms.ltb_spec.
  change (Prim2SF 0.2) with (S754_finite false 7205759403792794 (-55)).
  by intros [[s ->]| ->].
Qed.

Lemma quotient_above_threshold (n : nat) (union : Z) (q : float) :
  jaccard_quotient (Z.of_nat n) union = Ok q → py_gt q 0.2 = true → n ≠ 0.
Proof.
  intros Hq Hpos ->. change (Z.of_nat 0) with 0%Z in Hq.
  destruct (zero_quotient union) as (q' & Hq' & Hnull & _).
  rewrite Hq in Hq'. injection Hq' as ->.
  apply null_score_below_threshold in Hnull. congruence.
Qed.

Lemma content_score_shared (db : database) (student_skills : gset string)
    (internship : internship_row) (r : recommendation) :
  content_score db student_skills internship = Ok (Some r) →
  ∃ tag, tag ∈ student_skills ∧ tag ∈ required_skills_of internship.
Proof.
  unfold content_score. destruct (decide _) as [|Hne]; [done|].
  destruct (jaccard_quotient _ _) as [q|] eqn:Hq; simpl; [|done].
  destruct (py_gt q _) eqn:E; [|done]. intros _.
  pose proof (quotient_above_threshold _ _ _ Hq E) as Hn.
  apply size_non_empty_iff, set_choose in Hn as [tag [? ?]%elem_of_intersection].
  by exists tag.
Qed.

(** X6. Every record of the Content-based scorer shows a posting of the
    catalogue that has at least one tag in common with the skills of
    the seeker's profile; it has type Content-based, no sub-scores, and
    a similarity that passes [similarity > 0.2]. *)
Theorem content_records_share_a_tag (db : database) (user_id : Z) :
  ∃ l, content_based_recommendations db user_id = Ok l
       ∧ ∀ r, r ∈ l →
           ∃ profile skills internship tag,
             find (λ p, (profile_user_id p =? user_id)%Z) (profiles db)
             = Some profile
             ∧ profile_skills profile = Some skills
             ∧ internship ∈ internships db
             ∧ shows db internship r
             ∧ tag ∈ skill_set skills
             ∧ tag ∈ required_skills_of internship
             ∧ rec_type r = "Content-based"
             ∧ rec_skill_match r = None
             ∧ rec_education_bonus r = None
             ∧ rec_experience_bonus r = None
             ∧ py_gt (rec_similarity r) 0.2 = true.
Proof.
  unfold content_based_recommendations.
  destruct (find _ _) as [profile|];
    [|exists []; split; [done | by intros r ?%elem_of_nil]].
  destruct (profile_skills profile) as [[|c s]|] eqn:Hskills;
    try (exists []; split; [done | by intros r ?%elem_of_nil]).
  destruct (collect_spec (content_score db (skill_set (String c s)))
              (internships db)) as (rs & -> & _ & Hin).
  { intros x _. apply content_score_ok. }
  simpl. eexists. split; [done|].
  intros r Hr%elem_of_top. apply Hin in Hr as (i & Hi & Hs).
  destruct (content_score_shared _ _ _ _ Hs) as (tag & ? & ?).
  apply content_score_Some in Hs as (_ & Hrec & Hgt).
  exists profile, (String c s), i, tag.
  split; [done|]. split; [done|]. split; [done|].
  rewrite Hrec. by repeat split.
Qed.

Lemma cv_score_Some_rec (db : database) (cv : cv_row) (cv_skills : gset string)
    (internship : internship_row) (r : recommendation) :
  cv_score db cv cv_skills internship = Ok (Some r) →
  ∃ skill_similarity,
    r = cv_rec db internship skill_similarity
          (education_bonus_of cv internship) (experience_bonus_of cv internship).
Proof.
  unfold cv_score. destruct (decide _); [done|].
  destruct (skill_similarity_of _ _) as [q|]; simpl; [|done].
  destruct (py_gt _ _); [|done]. intros [= <-]. by exists q.
Qed.

Lemma bonus_of_values (field description : option string)
    (keywords : list string) :
  (bonus_of field description keywords = 0%float
   ∨ bonus_of field description keywords = 0.1%float)
  ∧ (Py.truthy description = false →
     bonus_of field description keywords = 0%float).
Proof.
  unfold bonus_of. destruct field as [[|c s]|]; try by split; [left|].
  destruct (Py.truthy description); [|by split; [left|]].
  destruct (Py.any_in _ _); split; auto; done.
Qed.

(** X7. Every record of the CV-based scorer shows a posting of the
    catalogue, has type CV-based and carries its three sub-scores: the
    similarity is their sum in the order skill match, education bonus,
    experience bonus; each bonus is 0 or 0.1, and both are 0 for a
    posting without description. *)
Theorem cv_records_carry_subscores (db : database) (user_id : Z) :
  ∃ l, cv_based_recommendations db user_id = Ok l
       ∧ ∀ r, r ∈ l →
           ∃ internship skill_match education_bonus experience_bonus,
             internship ∈ internships db
             ∧ shows db internship r
             ∧ rec_type r = "CV-based"
             ∧ rec_skill_match r = Some skill_match
             ∧ rec_education_bonus r = Some education_bonus
             ∧ rec_experience_bonus r = Some experience_bonus
             ∧ rec_similarity r
               = (skill_match + education_bonus + experience_bonus)%float
             ∧ (education_bonus = 0%float ∨ education_bonus = 0.1%float)
             ∧ (experience_bonus = 0%float ∨ experience_bonus = 0.1%float)
             ∧ (Py.truthy (rec_description r) = false →
                education_bonus = 0%float ∧ experience_bonus = 0%float).
Proof.
  unfold cv_based_recommendations.
  destruct (find _ _) as [cv|];
    [|exists []; split; [done | by intros r ?%elem_of_nil]].
  destruct (cv_candidates_spec db cv) as (rs & -> & Hin).
  simpl. eexists. split; [done|].
  intros r Hr%elem_of_top. apply Hin in Hr as (i & Hi & Hs).
  apply cv_score_Some_rec in Hs as (q & ->).
  exists i, q, (education_bonus_of cv i), (experience_bonus_of cv i).
  unfold education_bonus_of, experience_bonus_of. simpl.
  split; [done|]. split; [by repeat split|].
  split; [done|]. split; [done|]. split; [done|]. split; [done|]. split; [done|].
  split; [apply bonus_of_values|]. split; [apply bonus_of_values|].
  intros Hd. split; by apply bonus_of_values.
Qed.

(** X8. The skill set read from a CV holds nothing but vocabulary terms
    that occur in the lower-cased certifications, work experience or
    projects: a word outside the vocabulary, or a term that occurs in
    the education field only, is never in the set. *)
Theorem cv_skills_only_from_vocabulary (cv : cv_row) (skill : string) :
  skill ∈ cv_skills_of cv →
  skill ∈ tech_skills
  ∧ ∃ text, (cv_certifications cv = Some text
             ∨ cv_work_experience cv = Some text
             ∨ cv_projects cv = Some text)
            ∧ Py.contains skill (Py.lower text) = true.
Proof. apply cv_skills_of_spec. Qed.

Lemma cv_skills_only_from_vocabulary_witness :
  "python" ∈ tech_skills
  ∧ ∃ text, (cv_certifications Demo.plain_cv = Some text
             ∨ cv_work_experience Demo.plain_cv = Some text
             ∨ cv_projects Demo.plain_cv = Some text)
            ∧ Py.contains "python" (Py.lower text) = true.
Proof.
  apply (cv_skills_only_from_vocabulary Demo.plain_cv "python").
  apply (bool_decide_unpack _). vm_compute. reflexivity.
Defined.

Example education_gives_no_skill :
  cv_skills_of {| cv_user_id := 9; cv_certifications := None;
                  cv_work_experience := None; cv_projects := None;
                  cv_education := Some "python and java" |} = ∅.
Proof. reflexivity. Qed.

(** ** A CV without recognised skills *)

Lemma bonus_of_granted (text : string) (description : option string)
    (keywords : list string) :
  Py.any_in keywords (Py.lower text) = true →
  Py.any_in keywords "" = false →
  Py.truthy description = true →
  bonus_of (Some text) description keywords = 0.1%float.
Proof.
  intros Hany Hnone Hd. unfold bonus_of.
  destruct text as [|c s]; [simpl in Hany; congruence|].
  by rewrite Hd, Hany.
Qed.

(** X9. For a CV in which no vocabulary term occurs, whose education
    names a degree and whose work experience names a position, every
    posting with required skills and a description is a candidate of
    the CV-based scorer, whatever its tags: its skill match is 0 and the
    two bonuses alone give the similarity 0.2. *)
Theorem cv_bonuses_alone_pass (db : database) (cv : cv_row)
    (internship : internship_row) (education work : string) :
  cv_skills_of cv = ∅ →
  cv_education cv = Some education →
  Py.any_in ["bachelor"; "master"; "phd"; "degree"] (Py.lower education) = true →
  cv_work_experience cv = Some work →
  Py.any_in ["intern"; "developer"; "programmer"; "analyst"] (Py.lower work)
  = true →
  internship ∈ internships db →
  required_skills_of internship ≠ ∅ →
  Py.truthy (internship_description internship) = true →
  ∃ candidates r,
    cv_candidates db cv = Ok candidates
    ∧ r ∈ candidates
    ∧ shows db internship r
    ∧ rec_skill_match r = Some 0%float
    ∧ rec_similarity r = 0.2%float.
Proof.
  intros Hskills Hedu Hdeg Hwork Hpos Hin Hreq Hdesc.
  destruct (cv_candidates_spec db cv) as (candidates & Hcand & Hmem).
  exists candidates,
    (cv_rec db internship 0 0.1 0.1).
  split; [done|]. split; [|by repeat split].
  apply Hmem. exists internship. split; [done|].
  unfold cv_score. destruct (decide _) as [|_]; [done|].
  unfold skill_similarity_of. rewrite Hskills.
  destruct (decide _) as [_|]; [|done]. simpl.
  unfold education_bonus_of, experience_bonus_of. rewrite Hedu, Hwork.
  rewrite !bonus_of_granted by done. reflexivity.
Qed.

Lemma cv_bonuses_alone_pass_witness :
  ∃ candidates r,
    cv_candidates Demo.db Demo.unskilled_cv = Ok candidates
    ∧ r ∈ candidates
    ∧ shows Demo.db Demo.backend r
    ∧ rec_skill_match r = Some 0%float
    ∧ rec_similarity r = 0.2%float.
Proof.
  apply (cv_bonuses_alone_pass Demo.db Demo.unskilled_cv Demo.backend
           "Bachelor of Arts" "Intern at a bank").
  - reflexivity.
  - reflexivity.
  - reflexivity.
  - reflexivity.
  - reflexivity.
  - apply list_elem_of_here.
  - apply (bool_decide_unpack _). vm_compute. reflexivity.
  - reflexivity.
Defined.

Lemma collect_None {A B : Type} (turn : A → result (option B)) (l : list A) :
  (∀ x, x ∈ l → turn x = Ok None) → collect turn l = Ok [].
Proof.
  induction l as [|x l IH]; simpl; intros H; [done|].
  rewrite (H x) by left. simpl. rewrite IH; [done|].
  intros y Hy. apply H. by right.
Qed.

Lemma bonus_of_falsy (field description : option string)
    (keywords : list string) :
  Py.truthy field = false → bonus_of field description keywords = 0%float.
Proof. by destruct field as [[|c s]|]. Qed.

(** X10. For a CV in which no vocabulary term occurs and which lacks the
    education or the work experience, the CV-based scorer returns
    nothing: one bonus of 0.1 does not pass the threshold. *)
Theorem cv_one_bonus_is_not_enough (db : database) (user_id : Z) (cv : cv_row) :
  find (λ cv, (cv_user_id cv =? user_id)%Z) (cvs db) = Some cv →
  cv_skills_of cv = ∅ →
  Py.truthy (cv_education cv) = false
  ∨ Py.truthy (cv_work_experience cv) = false →
  cv_based_recommendations db user_id = Ok [].
Proof.
  intros Hcv Hskills Hlack. unfold cv_based_recommendations, cv_candidates.
  rewrite Hcv, collect_None; [done|].
  intros i _. unfold cv_score. destruct (decide _); [done|].
  unfold skill_similarity_of. rewrite Hskills.
  destruct (decide _) as [_|]; [|done]. simpl.
  destruct (bonus_of_values (cv_education cv) (internship_description i)
              ["bachelor"; "master"; "phd"; "degree"]) as [He _].
  destruct (bonus_of_values (cv_work_experience cv) (internship_description i)
              ["intern"; "developer"; "programmer"; "analyst"]) as [Hx _].
  unfold education_bonus_of, experience_bonus_of.
  destruct Hlack as [Hl|Hl].
  - rewrite (bonus_of_falsy _ _ _ Hl). by destruct Hx as [-> | ->].
  - rewrite (bonus_of_falsy _ _ _ Hl). by destruct He as [-> | ->].
Qed.

Lemma cv_one_bonus_is_not_enough_witness :
  cv_based_recommendations Demo.bonus_db 8 = Ok [].
Proof.
  apply (cv_one_bonus_is_not_enough Demo.bonus_db 8 Demo.uneducated_cv).
  - reflexivity.
  - reflexivity.
  - left. reflexivity.
Defined.

(** ** Letter case of the tags *)

Lemma comma_lower_char (c : ascii) :
  Ascii.eqb (Py.lower_char c) "," = Ascii.eqb c ",".
Proof. destruct c as [[] [] [] [] [] [] [] []]; reflexivity. Qed.

Lemma split_lower (s : string) :
  Py.split "," (Py.lower s) = map Py.lower (Py.split "," s).
Proof.
  induction s as [|c s IH]; simpl; [done|].
  rewrite comma_lower_char, IH.
  destruct (Ascii.eqb c ","); [done|]. by destruct (Py.split "," s).
Qed.

(** X11. Letter case does not matter in an ASCII skill string: the
    string and its lower-cased form parse to the same tag set, for the
    seeker's skills and for the required skills of a posting alike. *)
Theorem skill_set_ignores_case (s : string) :
  Py.isascii s = true →
  skill_set (Py.lower s) = skill_set s.
Proof.
  intros _.
  unfold skill_set. rewrite split_lower. f_equal.
  rewrite map_map. apply map_ext. intros skill.
  by rewrite strip_lower, lower_idemp.
Qed.

Lemma skill_set_ignores_case_witness :
  skill_set (Py.lower "Python, SQL") = skill_set "Python, SQL".
Proof.
  apply (skill_set_ignores_case "Python, SQL").
  reflexivity.
Defined.

Example skill_set_of_mixed_case :
  skill_set "Python, SQL" = skill_set "python,sql".
Proof. vm_compute. reflexivity. Qed.

(** ** The list returned by [get_recommendations] *)

Lemma get_recommendations_unfold (set_iter : gset Z → list Z) (db : database)
    (user_id : Z) :
  ∃ content_recs cv_recs collab_recs,
    content_based_recommendations db user_id = Ok content_recs
    ∧ cv_based_recommendations db user_id = Ok cv_recs
    ∧ collaborative_filtering set_iter db user_id = Ok collab_recs
    ∧ get_recommendations set_iter db user_id
      = Ok (combine content_recs cv_recs collab_recs).
Proof.
  destruct (content_based_recommendations_spec db user_id) as (a & Ha & _).
  destruct (cv_based_recommendations_spec db user_id) as (b & Hb & _).
  destruct (collaborative_filtering_spec set_iter db user_id) as (c & Hc & _).
  exists a, b, c. unfold get_recommendations. by rewrite Ha, Hb, Hc.
Qed.

(** X12. The list returned by [get_recommendations] holds a posting id
    at most once, whatever the catalogue and the three scorers give. *)
Theorem get_recommendations_ids_unique
    (set_iter : gset Z → list Z) (db : database) (user_id : Z) :
  ∃ l, get_recommendations set_iter db user_id = Ok l ∧ NoDup (map rec_id l).
Proof.
  destruct (get_recommendations_unfold set_iter db user_id)
    as (a & b & c & _ & _ & _ & ->).
  eexists. split; [done|]. apply combine_NoDup.
Qed.

(** X13. [get_recommendations] neither invents nor loses a posting: each
    returned record is a record of one of the three scorers, unchanged,
    and the id of every record of every scorer is in the returned
    list. *)
Theorem get_recommendations_merges_scorers
    (set_iter : gset Z → list Z) (db : database) (user_id : Z) :
  ∃ content_recs cv_recs collab_recs l,
    content_based_recommendations db user_id = Ok content_recs
    ∧ cv_based_recommendations db user_id = Ok cv_recs
    ∧ collaborative_filtering set_iter db user_id = Ok collab_recs
    ∧ get_recommendations set_iter db user_id = Ok l
    ∧ (∀ r, r ∈ l → r ∈ content_recs ∨ r ∈ cv_recs ∨ r ∈ collab_recs)
    ∧ (∀ r, r ∈ content_recs ∨ r ∈ cv_recs ∨ r ∈ collab_recs →
            rec_id r ∈ map rec_id l).
Proof.
  destruct (get_recommendations_unfold set_iter db user_id)
    as (a & b & c & Ha & Hb & Hc & Hl).
  exists a, b, c, (combine a b c). split_and!; try done.
  - apply combine_sources.
  - apply combine_covers.
Qed.

(** X14. When the catalogue holds each posting id once, the returned
    list begins with the postings of the Content-based scorer, in their
    ranked order; the postings that only the other two scorers found
    come after them. *)
Theorem get_recommendations_content_first
    (set_iter : gset Z → list Z) (db : database) (user_id : Z) :
  NoDup (map internship_id (internships db)) →
  ∃ content_recs l,
    content_based_recommendations db user_id = Ok content_recs
    ∧ get_recommendations set_iter db user_id = Ok l
    ∧ map rec_id content_recs `prefix_of` map rec_id l.
Proof.
  intros Hnd.
  destruct (get_recommendations_unfold set_iter db user_id)
    as (a & b & c & Ha & _ & _ & Hl).
  exists a, (combine a b c). split; [done|]. split; [done|].
  apply combine_content_first. by apply (content_ids_NoDup db user_id).
Qed.

Lemma get_recommendations_content_first_witness :
  ∃ content_recs l,
    content_based_recommendations Demo.db 1 = Ok content_recs
    ∧ get_recommendations elements Demo.db 1 = Ok l
    ∧ map rec_id content_recs `prefix_of` map rec_id l.
Proof.
  apply (get_recommendations_content_first elements Demo.db 1).
  apply (bool_decide_unpack _). vm_compute. reflexivity.
Defined.

Lemma company_name_of_unknown (db : database) (company_id : Z) :
  (∀ u, u ∈ users db → user_id_of u ≠ company_id) →
  company_name_of db company_id = "Unknown Company".
Proof.
  intros Hno. unfold company_name_of.
  destruct (find _ _) as [u|] eqn:E; [|done].
  apply find_some in E as [Hin Heq]. apply Z.eqb_eq in Heq.
  apply list_elem_of_In in Hin. by destruct (Hno u Hin).
Qed.

(** X15. Every record returned by [get_recommendations] shows a posting
    of the catalogue and is tagged with one of the three strategies; if
    no user row has the id of the posting's company, the company name of
    the record is 'Unknown Company'. *)
Theorem get_recommendations_records_show_catalogue
    (set_iter : gset Z → list Z) (db : database) (user_id : Z) :
  ∃ l, get_recommendations set_iter db user_id = Ok l
       ∧ ∀ r, r ∈ l →
           (∃ internship, internship ∈ internships db ∧ shows db internship r)
           ∧ (rec_type r = "Content-based" ∨ rec_type r = "CV-based"
              ∨ rec_type r = "Collaborative")
           ∧ ((∀ u, u ∈ users db → user_id_of u ≠ rec_company_id r) →
              rec_company_name r = "Unknown Company").
Proof.
  destruct (get_recommendations_unfold set_iter db user_id)
    as (a & b & c & Ha & Hb & Hc & Hl).
  exists (combine a b c). split; [done|]. intros r Hr.
  assert (∃ internship, internship ∈ internships db ∧ shows db internship r
          ∧ (rec_type r = "Content-based" ∨ rec_type r = "CV-based"
             ∨ rec_type r = "Collaborative")) as (i & Hi & Hshows & Htype).
  { apply combine_sources in Hr as [Hr|[Hr|Hr]].
    - destruct (content_based_recommendations_spec db user_id)
        as (a' & Ha' & _ & Hrecs).
      rewrite Ha in Ha'. injection Ha' as <-.
      destruct (Hrecs r Hr) as (i & Hi & _ & Hrec & _).
      exists i. split; [done|]. rewrite Hrec. split; [by repeat split | by left].
    - revert Hb Hr. unfold cv_based_recommendations.
      destruct (find _ _) as [cv|]; [|by intros [= <-] ?%elem_of_nil].
      destruct (cv_candidates_spec db cv) as (rs & -> & Hin). simpl.
      intros [= <-] Hr%elem_of_top. apply Hin in Hr as (i & Hi & Hs).
      apply cv_score_Some_rec in Hs as (q & ->).
      exists i. split; [done|]. split; [by repeat split | right; by left].
    - destruct (collaborative_filtering_records set_iter db user_id)
        as (c' & Hc' & _ & Hrecs).
      rewrite Hc in Hc'. injection Hc' as <-.
      destruct (Hrecs r Hr) as (_ & i & _ & _ & _ & Hi & Hrec & _).
      exists i. split; [done|]. rewrite Hrec.
      split; [by repeat split | right; by right]. }
  split; [by exists i|]. split; [done|].
  intros Hno. destruct Hshows as (_ & _ & _ & _ & _ & Hcid & Hname).
  rewrite Hname. apply company_name_of_unknown. by rewrite <- Hcid.
Qed.

(** ** Ties in the ranking *)

Lemma insert_desc_sublist {A : Type} (key : A → float) (x : A) (l : list A) :
  sublist l (insert_desc key x l).
Proof.
  induction l as [|y l IH]; simpl; [apply sublist_nil_l|].
  destruct (py_gt (key y) (key x)).
  - by apply sublist_skip.
  - by apply sublist_cons.
Qed.

Lemma insert_desc_before {A : Type} (key : A → float) (x b : A) (l : list A) :
  b ∈ l → py_gt (key b) (key x) = false →
  sublist [x; b] (insert_desc key x l).
Proof.
  induction l as [|y l IH]; simpl; intros Hb Hle.
  - by apply elem_of_nil in Hb.
  - destruct (py_gt (key y) (key x)) eqn:E.
    + apply elem_of_cons in Hb as [->|Hb]; [congruence|].
      apply sublist_cons. by apply IH.
    + apply sublist_skip. by apply singleton_sublist_l.
Qed.

Lemma sublist_pair_cons {A : Type} (a b x : A) (l : list A) :
  sublist [a; b] (x :: l) → a = x ∧ b ∈ l ∨ sublist [a; b] l.
Proof.
  intros H. apply sublist_cons_r in H as [H|(l' & [= -> <-] & H)].
  - by right.
  - left. split; [done|]. by apply singleton_sublist_l.
Qed.

Lemma sort_desc_stable {A : Type} (key : A → float) (a b : A) (l : list A) :
  sublist [a; b] l → py_gt (key b) (key a) = false →
  sublist [a; b] (sort_desc key l).
Proof.
  induction l as [|x l IH]; simpl; intros Hab Hle.
  - by apply sublist_nil_r in Hab.
  - apply sublist_pair_cons in Hab as [[-> Hb]|Hab].
    + apply insert_desc_before; [|done]. by apply elem_of_sort_desc.
    + etrans; [by apply IH | apply insert_desc_sublist].
Qed.

Lemma content_based_recommendations_candidates (db : database) (user_id : Z)
    (profile : profile_row) (c : ascii) (s : string) :
  find (λ p, (profile_user_id p =? user_id)%Z) (profiles db) = Some profile →
  profile_skills profile = Some (String c s) →
  ∃ candidates,
    content_candidates db (String c s) = Ok candidates
    ∧ content_based_recommendations db user_id
      = Ok (take 5 (sort_desc rec_similarity candidates)).
Proof.
  intros Hp Hs. unfold content_based_recommendations, content_candidates.
  rewrite Hp, Hs.
  destruct (collect_spec (content_score db (skill_set (String c s)))
              (internships db)) as (rs & -> & _).
  { intros x _. apply content_score_ok. }
  by exists rs.
Qed.

(** X16. Ties are broken by catalogue order.  The candidates of the
    CV-based scorer are collected in catalogue order; in the ranked list
    that is cut to five, a candidate still precedes every later
    candidate whose similarity is not strictly greater.  The same holds
    for the candidates of the Content-based scorer. *)
Theorem ranking_breaks_ties_by_catalogue_order (db : database) :
  (∀ cv, ∃ candidates,
      cv_candidates db cv = Ok candidates
      ∧ sublist (map rec_id candidates) (map internship_id (internships db))
      ∧ ∀ a b, sublist [a; b] candidates →
               py_gt (rec_similarity b) (rec_similarity a) = false →
               sublist [a; b] (sort_desc rec_similarity candidates))
  ∧ (∀ skills, ∃ candidates,
       content_candidates db skills = Ok candidates
       ∧ sublist (map rec_id candidates) (map internship_id (internships db))
       ∧ ∀ a b, sublist [a; b] candidates →
                py_gt (rec_similarity b) (rec_similarity a) = false →
                sublist [a; b] (sort_desc rec_similarity candidates)).
Proof.
  split.
  - intros cv. destruct (cv_candidates_spec db cv) as (rs & Hrs & _).
    exists rs. split; [done|]. split.
    + eapply collect_sublist; [|exact Hrs].
      intros x y Hy. by apply cv_score_Some in Hy as (_ & ? & _).
    + intros a b. apply sort_desc_stable.
  - intros skills. unfold content_candidates.
    destruct (collect_spec (content_score db (skill_set skills)) (internships db))
      as (rs & Hrs & _).
    { intros x _. apply content_score_ok. }
    exists rs. split; [done|]. split.
    + eapply collect_sublist; [|exact Hrs].
      intros x y Hy. apply content_score_Some in Hy as (_ & -> & _). done.
    + intros a b. apply sort_desc_stable.
Qed.

(** ** A seeker with a profile only *)

Lemma dict_set_new {V : Type} (k : Z) (v : V) (d : dict V) :
  k ∉ dict_keys d → dict_set k v d = d ++ [(k, v)].
Proof.
  unfold dict_keys. induction d as [|[k' v'] d IH]; simpl; [done|].
  intros [Hne Hk]%not_elem_of_cons.
  destruct (k =? k')%Z eqn:E; [apply Z.eqb_eq in E; congruence|].
  by rewrite IH.
Qed.

Lemma content_pass_values (l : list recommendation) (d : dict recommendation) :
  NoDup (dict_keys d ++ map rec_id l) →
  dict_values (foldl (λ all_recs rec, dict_set (rec_id rec) rec all_recs) d l)
  = dict_values d ++ l.
Proof.
  revert d. induction l as [|x l IH]; simpl; intros d Hnd.
  - by rewrite app_nil_r.
  - assert (rec_id x ∉ dict_keys d) as Hx.
    { apply NoDup_app in Hnd as (_ & Hdis & _). intros Hin.
      apply (Hdis _ Hin). left. }
    rewrite dict_set_new by done. rewrite IH.
    + unfold dict_values. rewrite map_app. simpl. by rewrite <- app_assoc.
    + unfold dict_keys. rewrite map_app. simpl. by rewrite <- app_assoc.
Qed.

Lemma combine_content_only (content_recs : list recommendation) :
  NoDup (map rec_id content_recs) → combine content_recs [] [] = content_recs.
Proof.
  intros Hnd. unfold combine, all_recs_collab, all_recs_cv, content_dict. simpl.
  by rewrite content_pass_values.
Qed.

(** X17. For a seeker without CV and without application, in a catalogue
    that holds each posting id once, [get_recommendations] returns
    exactly the list of the Content-based scorer, in its order. *)
Theorem get_recommendations_of_profile_only
    (set_iter : gset Z → list Z) (db : database) (user_id : Z) :
  NoDup (map internship_id (internships db)) →
  find (λ cv, (cv_user_id cv =? user_id)%Z) (cvs db) = None →
  (∀ a, a ∈ applications db → app_student_id a ≠ user_id) →
  get_recommendations set_iter db user_id
  = content_based_recommendations db user_id.
Proof.
  intros Hnd Hcv Hno. unfold get_recommendations.
  destruct (content_based_recommendations_spec db user_id) as (a & Ha & _).
  rewrite Ha. simpl.
  assert (cv_based_recommendations db user_id = Ok []) as ->
    by (unfold cv_based_recommendations; by rewrite Hcv).
  rewrite collaborative_filtering_no_applications by done. simpl.
  rewrite combine_content_only; [done|].
  by apply (content_ids_NoDup db user_id).
Qed.

Lemma get_recommendations_of_profile_only_witness :
  get_recommendations elements Demo.newcomer_db 5
  = content_based_recommendations Demo.newcomer_db 5.
Proof.
  apply (get_recommendations_of_profile_only elements Demo.newcomer_db 5).
  - apply (bool_decide_unpack _). vm_compute. reflexivity.
  - reflexivity.
  - apply Forall_forall. repeat constructor; discriminate.
Defined.

Example newcomer_recommendations :
  option_map (map rec_id)
    (match get_recommendations elements Demo.newcomer_db 5 with
     | Ok l => Some l
     | Raise _ => None
     end) = Some [11%Z; 10%Z].
Proof. vm_compute. reflexivity. Qed.

(** ** The sample data of [create_sample_data] *)

(** The rows that [create_sample_data] inserts into an empty database,
    as the engine reads them: the sample student matches the first
    sample internship with 2 tags of 5; the second, with 1 tag of 5,
    has similarity 0.2, which does not pass [similarity > 0.2]. *)
Example sample_student_recommendations :
  option_map (map rec_title)
    (match content_based_recommendations
             {| profiles := [ {| profile_user_id := 2;
                                 profile_skills := Some "Python, Flask, SQL" |} ];
                internships :=
                  [ {| internship_id := 1;
                       internship_title := "Web Development Intern";
                       internship_description :=
                         Some "Develop web applications using Flask";
                       internship_required_skills := Some "Python, Flask, HTML, CSS";
                       internship_posted_at := "";
                       internship_company_id := 3 |};
                    {| internship_id := 2;
                       internship_title := "Data Science Intern";
                       internship_description :=
                         Some "Analyze datasets and build ML models";
                       internship_required_skills :=
                         Some "Python, Pandas, Machine Learning";
                       internship_posted_at := "";
                       internship_company_id := 3 |} ];
                users := [ {| user_id_of := 1; user_name := "Admin User" |};
                           {| user_id_of := 2; user_name := "John Doe" |};
                           {| user_id_of := 3; user_name := "TechCorp Inc" |} ];
                cvs := []; applications := [] |} 2 with
     | Ok l => Some l
     | Raise _ => None
     end) = Some ["Web Development Intern"].
Proof. vm_compute. reflexivity. Qed.
